(** * visualize_dependency.py: a shallow embedding and its properties

    The definitions follow the source file:

    - [PyStr]: the [str] methods the source calls ([startswith],
      [strip], [split], [splitlines]), and [join] to write lines down;
    - [get_dependencies]: the [pip show] query and the parsing of its
      output (source lines 29-54);
    - [generate_plantuml_script] (source lines 85-99);
    - [build_dependency_graph] with its closure [add_dependencies]
      (source lines 57-82).

    Python [str] values are modelled by [string]; a character stands for
    the code point of the same number, so the model covers texts whose
    code points are below 256.  Python [int] is [Z].  The set [visited]
    is a [gset string].  Running [pip] and printing are recorded in a
    trace of events; exceptions are an outcome of their own. *)

From Stdlib Require Import ZArith String Ascii List Bool Lia Permutation.
From stdpp Require Import gmap strings list.

(** ** Python string methods *)

Module PyStr.

(** [str.isspace] on one code point below 256: TAB..CR, FS..US, space,
    NEL (0x85) and NBSP (0xA0). *)
Definition isspace (c : ascii) : bool :=
  let n := N_of_ascii c in
  ((9 <=? n) && (n <=? 13) || (28 <=? n) && (n <=? 32)
   || (n =? 133) || (n =? 160))%N.

(** The line boundaries of [str.splitlines] below 256: LF, VT, FF, CR,
    FS, GS, RS and NEL; CR LF counts as one boundary. *)
Definition is_linebreak (c : ascii) : bool :=
  let n := N_of_ascii c in
  ((10 <=? n) && (n <=? 13) || (28 <=? n) && (n <=? 30) || (n =? 133))%N.

Definition CR : ascii := "013"%char.
Definition LF : ascii := "010"%char.

(** Truthiness of a [str]: non-empty. *)
Definition truthy (s : string) : bool :=
  match s with EmptyString => false | String _ _ => true end.

(** [s.startswith(p)] *)
Definition startswith (p s : string) : bool := String.prefix p s.

Fixpoint lstrip (s : string) : string :=
  match s with
  | EmptyString => EmptyString
  | String c s' => if isspace c then lstrip s' else s
  end.

Fixpoint rstrip (s : string) : string :=
  match s with
  | EmptyString => EmptyString
  | String c s' =>
      match rstrip s' with
      | EmptyString => if isspace c then EmptyString else String c EmptyString
      | r => String c r
      end
  end.

(** [s.strip()] *)
Definition strip (s : string) : string := rstrip (lstrip s).

(** Prepend a character to the piece being read. *)
Definition push (c : ascii) (pieces : list string) : list string :=
  match pieces with
  | [] => [String c EmptyString]
  | p :: ps => String c p :: ps
  end.

(** [s.split(sep)] for a non-empty [sep]: leftmost, non-overlapping
    occurrences.  [skip] counts the characters of a matched separator
    that are still to be passed over. *)
Fixpoint split_from (sep : string) (skip : nat) (s : string) : list string :=
  match s with
  | EmptyString => [EmptyString]
  | String c s' =>
      match skip with
      | S k => split_from sep k s'
      | O =>
          if String.prefix sep s
          then EmptyString :: split_from sep (String.length sep - 1) s'
          else push c (split_from sep 0 s')
      end
  end.

Definition split (sep s : string) : list string := split_from sep 0 s.

(** [s.splitlines()]: no empty last line after a final boundary. *)
Fixpoint splitlines (s : string) : list string :=
  match s with
  | EmptyString => []
  | String c s' =>
      if Ascii.eqb c CR then
        match s' with
        | String c' s'' =>
            if Ascii.eqb c' LF then EmptyString :: splitlines s''
            else EmptyString :: splitlines s'
        | EmptyString => [EmptyString]
        end
      else if is_linebreak c then EmptyString :: splitlines s'
      else push c (splitlines s')
  end.

(** [sep.join(items)] *)
Fixpoint join (sep : string) (items : list string) : string :=
  match items with
  | [] => EmptyString
  | [x] => x
  | x :: rest => x +:+ sep +:+ join sep rest
  end.

End PyStr.

(** ** Effects

    What the program does to the outside: it runs [pip show] and it
    prints.  A run is a function from the trace so far to an outcome and
    the extended trace. *)

Inductive exn : Type :=
| FileNotFoundError   (* raised by [subprocess.run] when [pip] cannot be started *)
| IndexError.         (* raised by [line.split(":")[1]] *)

Inductive outcome (A : Type) : Type :=
| Return (a : A)
| Raise (e : exn).
Arguments Return {A} a.
Arguments Raise {A} e.

Inductive event : Type :=
| RunPip (pkg : string)    (* subprocess.run(["pip", "show", pkg], ...) *)
| PrintLine (msg : string).    (* print(msg) *)

Definition IO (A : Type) : Type := list event -> outcome A * list event.

(** What [subprocess.run] meets: a process that ran to an exit status
    with some captured standard output, or no process at all. *)
Inductive process : Type :=
| Exited (returncode : Z) (stdout : string)
| NotStarted.

(** The packages queried along a trace, in order. *)
Definition lookups (tr : list event) : list string :=
  omap (fun e => match e with RunPip p => Some p | PrintLine _ => None end) tr.

(** The messages printed along a trace, in order. *)
Definition printed (tr : list event) : list string :=
  omap (fun e => match e with PrintLine m => Some m | RunPip _ => None end) tr.

(** ** get_dependencies *)

(** Lines 47-54: the loop over the lines of the output.  The list
    comprehension filters on the untrimmed piece and trims afterwards. *)
Fixpoint scan_lines (lines : list string) : outcome (list string) :=
  match lines with
  | [] => Return []
  | line :: rest =>
      if PyStr.startswith "Requires" line then
        match PyStr.split ":" line !! 1%nat with
        | None => Raise IndexError
        | Some field =>
            let requires_line := PyStr.strip field in
            if PyStr.truthy requires_line
            then Return (List.map PyStr.strip
                           (List.filter PyStr.truthy
                              (PyStr.split ", " requires_line)))
            else Return []
        end
      else scan_lines rest
  end.

Definition parse_requires (stdout : string) : outcome (list string) :=
  scan_lines (PyStr.splitlines stdout).

Definition error_message (package_name : string) : string :=
  "Error: Could not fetch dependencies for " +:+ package_name.

Section Pip.

(** The package manager as the program finds it.  One traversal asks
    about a package at most once ([build_dependency_graph_traversed] below), so a function
    of the package name is all a traversal can observe. *)
Variable pip_show : string -> process.

(** Lines 39-45 and 47-54.  [check=True] turns a non-zero exit status
    into [CalledProcessError], the one exception the [except] clause
    names. *)
Definition get_dependencies (package_name : string) : IO (list string) :=
  fun tr =>
    let tr := tr ++ [RunPip package_name] in
    match pip_show package_name with
    | NotStarted => (Raise FileNotFoundError, tr)
    | Exited returncode stdout =>
        if (returncode =? 0)%Z
        then (parse_requires stdout, tr)
        else (Return [], tr ++ [PrintLine (error_message package_name)])
    end.

End Pip.

(** ** generate_plantuml_script *)

Definition nl : string := String PyStr.LF EmptyString.

Definition generate_plantuml_script (graph : list string) : string :=
  let plantuml_script := "@startuml" +:+ nl in
  let plantuml_script :=
    fold_left (fun script relation => script +:+ (relation +:+ nl))
              graph plantuml_script in
  plantuml_script +:+ "@enduml".

(** ** build_dependency_graph *)

(** The two variables of [build_dependency_graph] that its closure
    [add_dependencies] mutates. *)
Record locals : Type := Locals { graph : list string; visited : gset string }.

(** Line 78: f"{pkg_name} --> {dep}" *)
Definition relation (pkg_name dep : string) : string :=
  pkg_name +:+ " --> " +:+ dep.

(** A run of the closure: [None] when the recursion budget of the model
    is used up, otherwise the outcome and the trace. *)
Definition run : Type := option (outcome locals * list event).

Section Traversal.

Variable pip_show : string -> process.
Variable max_depth : Z.

(** Lines 77-79: the [for] loop, with the recursive call as a
    parameter. *)
Fixpoint for_deps (recur : string -> Z -> locals -> list event -> run)
    (pkg_name : string) (current_depth : Z) (dependencies : list string)
    (l : locals) (tr : list event) : run :=
  match dependencies with
  | [] => Some (Return l, tr)
  | dep :: rest =>
      let l := Locals (graph l ++ [relation pkg_name dep]) (visited l) in
      match recur dep (current_depth + 1)%Z l tr with
      | Some (Return l, tr) => for_deps recur pkg_name current_depth rest l tr
      | stop => stop
      end
  end.

(** Lines 71-79.  [fuel] bounds the nesting of calls. *)
Fixpoint add_dependencies (fuel : nat) (pkg_name : string)
    (current_depth : Z) (l : locals) (tr : list event) : run :=
  match fuel with
  | O => None
  | S fuel =>
      if (current_depth >? max_depth)%Z || bool_decide (pkg_name ∈ visited l)
      then Some (Return l, tr)
      else
        let l := Locals (graph l) ({[pkg_name]} ∪ visited l) in
        match get_dependencies pip_show pkg_name tr with
        | (Return dependencies, tr) =>
            for_deps (add_dependencies fuel) pkg_name current_depth
                     dependencies l tr
        | (Raise e, tr) => Some (Raise e, tr)
        end
  end.

(** Lines 68-82.  A call at depth [d] nests at most
    [max_depth + 1 - d] further calls, so [max_depth + 1] levels are
    enough from depth 1 ([add_dependencies_fuel] below). *)
Definition build_dependency_graph (package_name : string)
    : list event -> option (outcome (list string) * list event) :=
  fun tr =>
    match add_dependencies (S (Z.to_nat max_depth)) package_name 1
                           (Locals [] ∅) tr with
    | Some (Return l, tr) => Some (Return (graph l), tr)
    | Some (Raise e, tr) => Some (Raise e, tr)
    | None => None
    end.

End Traversal.

(** ** Notions the statements use *)

Section Lookup.

Variable pip_show : string -> process.

(** The value of a lookup and the events it adds; neither depends on
    the trace so far ([get_dependencies_eq]). *)
Definition lookup_result (pkg : string) : outcome (list string) :=
  fst (get_dependencies pip_show pkg []).

Definition lookup_events (pkg : string) : list event :=
  snd (get_dependencies pip_show pkg []).

(** [deps] is the dependency relation the package manager answers
    with: every lookup returns, and returns [deps p]. *)
Definition dependency_relation (deps : string -> list string) : Prop :=
  forall p, lookup_result p = Return (deps p).

End Lookup.

(** The dependency relation a package manager answers with, where it
    answers. *)
Definition deps_of (pip_show : string -> process) (p : string) : list string :=
  match lookup_result pip_show p with
  | Return ds => ds
  | Raise _ => []
  end.

(** The edges of the packages [expanded], package by package. *)
Definition edges_of (deps : string -> list string) (expanded : list string)
    : list string :=
  flat_map (fun p => List.map (relation p) (deps p)) expanded.

(** What a run of the traversal from locals [l] and trace [tr] amounts
    to when every lookup returns: it returns, [graph] grows by a
    rearrangement of [first] and the edges of the packages newly looked
    up, [visited] grows by exactly these packages, none of them was
    visited before and none is looked up twice, and all of them lie in
    every set that holds [starts] and is closed under [deps]. *)
Definition traversed (deps : string -> list string)
    (starts first : list string) (l : locals) (tr : list event) (r : run)
    : Prop :=
  exists (es : list string) (trn : list event),
    r = Some (Return (Locals (graph l ++ es)
                             (list_to_set (lookups trn) ∪ visited l)),
              tr ++ trn)
    /\ NoDup (lookups trn)
    /\ (forall q, q ∈ lookups trn -> q ∉ visited l)
    /\ es ≡ₚ first ++ edges_of deps (lookups trn)
    /\ (forall U : gset string,
          (forall q, q ∈ starts -> q ∈ U) ->
          (forall p q, p ∈ U -> q ∈ deps p -> q ∈ U) ->
          forall q, q ∈ lookups trn -> q ∈ U).

(** The query of [get_dependencies] failed: the process exited with a
    non-zero status (as [pip show] does for a package that is not
    installed), or it could not be started. *)
Definition query_failed (p : process) : Prop :=
  match p with
  | Exited returncode _ => returncode <> 0%Z
  | NotStarted => True
  end.

(** An identifier as a [Requires] line lists it: not empty, and free of
    white space, commas and colons. *)
Definition no_space (c : ascii) : bool := negb (PyStr.isspace c).
Definition no_comma (c : ascii) : bool := negb (Ascii.eqb c ",").
Definition no_colon (c : ascii) : bool := negb (Ascii.eqb c ":").
Definition no_linebreak (c : ascii) : bool := negb (PyStr.is_linebreak c).

Definition ident_char (c : ascii) : bool :=
  no_space c && no_comma c && no_colon c.

Definition chars_all (f : ascii -> bool) (s : string) : bool :=
  forallb f (list_ascii_of_string s).

Definition identifier (s : string) : bool :=
  PyStr.truthy s && chars_all ident_char s.

Definition blank (s : string) : bool := chars_all PyStr.isspace s.

(** One item of the list, with the white space around it. *)
Record item : Type :=
  Item { pad_left : string; item_name : string; pad_right : string }.

Definition item_text (i : item) : string :=
  pad_left i +:+ item_name i +:+ pad_right i.

Definition item_ok (i : item) : bool :=
  blank (pad_left i) && identifier (item_name i) && blank (pad_right i).

(** ** The calls of the traversal, one by one

    [add_dependencies_calls] is [add_dependencies] with a log of its own
    calls: package, depth, and whether the guard of line 72 let the call
    through to the lookup.  The program keeps no such log; it is here to
    state in which order occurrences of a package are reached.
    [add_dependencies_calls_erase] shows that the log changes nothing. *)

Record call : Type :=
  Call { call_pkg : string; call_depth : Z; call_expanded : bool }.

Definition run_calls : Type :=
  option (outcome locals * list event * list call).

Section TraversalCalls.

Variable pip_show : string -> process.
Variable max_depth : Z.

Fixpoint for_deps_calls
    (recur : string -> Z -> locals -> list event -> list call -> run_calls)
    (pkg_name : string) (current_depth : Z) (dependencies : list string)
    (l : locals) (tr : list event) (cs : list call) : run_calls :=
  match dependencies with
  | [] => Some (Return l, tr, cs)
  | dep :: rest =>
      let l := Locals (graph l ++ [relation pkg_name dep]) (visited l) in
      match recur dep (current_depth + 1)%Z l tr cs with
      | Some (Return l, tr, cs) =>
          for_deps_calls recur pkg_name current_depth rest l tr cs
      | stop => stop
      end
  end.

Fixpoint add_dependencies_calls (fuel : nat) (pkg_name : string)
    (current_depth : Z) (l : locals) (tr : list event) (cs : list call)
    : run_calls :=
  match fuel with
  | O => None
  | S fuel =>
      if (current_depth >? max_depth)%Z || bool_decide (pkg_name ∈ visited l)
      then Some (Return l, tr, cs ++ [Call pkg_name current_depth false])
      else
        let cs := cs ++ [Call pkg_name current_depth true] in
        let l := Locals (graph l) ({[pkg_name]} ∪ visited l) in
        match get_dependencies pip_show pkg_name tr with
        | (Return dependencies, tr) =>
            for_deps_calls (add_dependencies_calls fuel) pkg_name
                           current_depth dependencies l tr cs
        | (Raise e, tr) => Some (Raise e, tr, cs)
        end
  end.

(** [build_dependency_graph] with the log. *)
Definition build_dependency_graph_calls (package_name : string)
    : list event -> option (outcome (list string) * list event * list call) :=
  fun tr =>
    match add_dependencies_calls (S (Z.to_nat max_depth)) package_name 1
                                 (Locals [] ∅) tr [] with
    | Some (Return l, tr, cs) => Some (Return (graph l), tr, cs)
    | Some (Raise e, tr, cs) => Some (Raise e, tr, cs)
    | None => None
    end.

(** "The occurrence reached first is the one expanded": a call that is
    let through is the earliest call for its package. *)
Definition first_reached_expanded (cs : list call) : Prop :=
  forall (i j : nat) (c c' : call),
    cs !! i = Some c -> call_expanded c = true ->
    cs !! j = Some c' -> call_pkg c' = call_pkg c -> (i <= j)%nat.

(** A call is let through exactly when it is within the depth limit
    and no earlier call for the same package was. *)
Definition first_in_depth_expanded (cs : list call) : Prop :=
  forall (i : nat) (c : call),
    cs !! i = Some c ->
    (call_expanded c = true <->
     (call_depth c <= max_depth)%Z /\
     forall (j : nat) (c' : call),
       (j < i)%nat -> cs !! j = Some c' -> call_pkg c' = call_pkg c ->
       (max_depth < call_depth c')%Z).

(** The log, the trace and [visited] tell the same story: the flags
    are as [first_in_depth_expanded] says, the packages looked up since
    the trace [tr0] are those of the calls let through, and the
    visited packages are those called within the depth limit. *)
Definition log_ok (tr0 : list event) (V : gset string) (tr : list event)
    (cs : list call) : Prop :=
  first_in_depth_expanded cs
  /\ lookups tr
     = lookups tr0 ++ List.map call_pkg (List.filter call_expanded cs)
  /\ forall p, p ∈ V <->
               exists c, c ∈ cs /\ call_pkg c = p
                         /\ (call_depth c <= max_depth)%Z.

End TraversalCalls.

(** ** Package managers for the examples *)

(** The output of a successful [pip show], reduced to three fields. *)
Definition pip_output (name requires : string) : process :=
  Exited 0 ("Name: " +:+ name +:+ nl +:+ "Requires: " +:+ requires +:+ nl
            +:+ "Required-by: " +:+ nl).

(** A package manager that knows the listed packages and exits with
    status 1 on every other. *)
Fixpoint pip_of (table : list (string * string)) (pkg : string) : process :=
  match table with
  | [] => Exited 1 EmptyString
  | (name, requires) :: rest =>
      if String.eqb pkg name then pip_output name requires
      else pip_of rest pkg
  end.

Definition pip_cycle : string -> process := pip_of [("A", "B"); ("B", "A")].

Definition pip_xyz : string -> process :=
  pip_of [("X", "Y, Z"); ("Y", "W"); ("Z", "")].

(** [W] is a dependency of [Y] (reached at depth 3) and of [X] (reached
    at depth 2). *)
Definition pip_shared : string -> process :=
  pip_of [("X", "Y, W"); ("Y", "W"); ("W", "V")].

Definition no_pip : string -> process := fun _ => NotStarted.

(** ** Further notions *)

(** [q] is reached from [p] along at most [n] steps of [deps]. *)
Fixpoint within (deps : string -> list string) (n : nat) (p q : string)
    : bool :=
  String.eqb p q
  || match n with
     | O => false
     | S n => existsb (fun d => within deps n d q) (deps p)
     end.


(** A piece of white space only: no name, and some padding. *)
Definition gap_ok (i : item) : bool :=
  blank (pad_left i) && negb (PyStr.truthy (item_name i))
  && blank (pad_right i) && PyStr.truthy (item_text i).

(** A piece of a Requires line: an identifier with its padding, or
    white space only. *)
Definition piece_ok (i : item) : bool := item_ok i || gap_ok i.

(** A package manager whose output has a Requires line without a
    colon. *)
Definition pip_no_colon : string -> process :=
  fun _ => Exited 0 ("Name: x" +:+ nl +:+ "Requires" +:+ nl).

(** The lookup of [q] returns a list. *)
Definition lookup_returns (pip_show : string -> process) (q : string) : bool :=
  match lookup_result pip_show q with
  | Return _ => true
  | Raise _ => false
  end.

(** The query for [q] runs and exits with a non-zero status. *)
Definition exits_nonzero (pip_show : string -> process) (q : string) : bool :=
  match pip_show q with
  | Exited returncode _ => negb (returncode =? 0)%Z
  | NotStarted => false
  end.

(** What a run of the traversal amounts to, whatever the package manager
    answers.  The calls are made on the packages [starts] at depth [d],
    from locals [l] and trace [tr].  The run looks up the packages [qs],
    one after the other and nothing else; none of them twice, none that
    was visited; each is reached from one of [starts] along at most
    [max_depth - d] dependencies.  When the run returns, all lookups
    returned, [visited] has grown by [qs], and it holds [starts] if they
    were within the depth limit.  When it raises, the last lookup raised
    and those before it returned. *)
Definition walked (pip_show : string -> process) (max_depth : Z)
    (starts : list string) (d : Z) (l : locals) (tr : list event)
    (o : outcome locals) (tr' : list event) : Prop :=
  exists qs : list string,
    tr' = tr ++ flat_map (lookup_events pip_show) qs
    /\ NoDup qs
    /\ (forall q, q ∈ qs -> q ∉ visited l)
    /\ (forall q, q ∈ qs ->
        (d <= max_depth)%Z
        /\ exists s, s ∈ starts
             /\ within (deps_of pip_show) (Z.to_nat (max_depth - d)) s q = true)
    /\ match o with
       | Return l' =>
           visited l' = list_to_set qs ∪ visited l
           /\ Forall (fun q => lookup_returns pip_show q = true) qs
           /\ ((d <= max_depth)%Z -> forall s, s ∈ starts -> s ∈ visited l')
       | Raise e =>
           exists qs0 q,
             qs = qs0 ++ [q]
             /\ Forall (fun q => lookup_returns pip_show q = true) qs0
             /\ lookup_result pip_show q = Raise e
       end.

(** Raising the depth limit from 3 to 4 makes [Q] be expanded under
    [B], at depth 4, where its dependency [P] is beyond the limit. *)
Definition pip_detour : string -> process :=
  pip_of [("R", "A, Q"); ("A", "B"); ("B", "Q"); ("Q", "P"); ("P", "Z")].

(** ** The rest of the program: configuration, output file, visualizer

    [xml.etree.ElementTree], [int], [open] and [os.path.exists] are not
    part of the program.  They are parameters here: what [ET.parse] gives
    for a path, what [int] makes of a text, what writing a file does to
    the file system and which paths exist.  The file system itself is any
    type; running [pip] is taken to leave it as it is. *)

(** A child element of the root of the configuration, as [ElementTree]
    hands it over: its tag and its [text] ([None] when the element has
    no text). *)
Record child : Type := Child { child_tag : string; child_text : option string }.

(** [root.find(name)]: the first child of the root with that tag. *)
Definition root_find (name : string) (root : list child) : option child :=
  List.find (fun c => String.eqb (child_tag c) name) root.

(** The dictionary [parse_xml_config] returns. *)
Record config : Type :=
  Config { cfg_visualizer_path : option string;
           cfg_package_name : option string;
           cfg_max_depth : Z;
           cfg_repository_url : option string }.

Inductive failure : Type :=
| ConfigUnreadable           (* [ET.parse] raised: no file, or not XML *)
| AttributeError             (* [root.find(...)] gave [None], which has no [text] *)
| TypeError                  (* [None] where a [str] is needed *)
| ValueError                 (* [int] of a text that is no integer *)
| LookupFailure (e : exn)    (* raised in [get_dependencies] *)
| WriteFailure.              (* [open] or [write] raised *)

Inductive result (A : Type) : Type :=
| Done (a : A)
| Failed (f : failure).
Arguments Done {A} a.
Arguments Failed {A} f.

Definition and_then {A B : Type} (r : result A) (k : A -> result B) : result B :=
  match r with
  | Done a => k a
  | Failed f => Failed f
  end.

Section Program.

Variable fs : Type.
Variable et_parse : string -> fs -> option (list child).
Variable py_int : string -> option Z.
Variable pip_show : string -> process.
Variable write_file : string -> string -> fs -> fs * bool.
Variable path_exists : string -> fs -> bool.

(** [root.find(name).text] *)
Definition element_text (name : string) (root : list child)
    : result (option string) :=
  match root_find name root with
  | None => Failed AttributeError
  | Some c => Done (child_text c)
  end.

(** [int(text)], where [text] may be [None]. *)
Definition int_of_text (text : option string) : result Z :=
  match text with
  | None => Failed TypeError
  | Some t =>
      match py_int t with
      | None => Failed ValueError
      | Some n => Done n
      end
  end.

(** Lines 17-26.  The entries of the dictionary are evaluated in the
    order they are written. *)
Definition parse_xml_config (config_path : string) (files : fs)
    : result config :=
  match et_parse config_path files with
  | None => Failed ConfigUnreadable
  | Some root =>
      and_then (element_text "visualizer_path" root) (fun visualizer_path =>
      and_then (element_text "package_name" root) (fun package_name =>
      and_then (and_then (element_text "max_depth" root) int_of_text)
               (fun max_depth =>
      and_then (element_text "repository_url" root) (fun repository_url =>
      Done (Config visualizer_path package_name max_depth repository_url)))))
  end.

(** Lines 110-111.  [write_file] gives the file system after
    [open(output_path, "w")] and [f.write(script)], and whether both went
    through; when one of them raises, the file may be left truncated. *)
Definition save_plantuml_script (script output_path : string) (files : fs)
    : result unit * fs :=
  match write_file output_path script files with
  | (files, true) => (Done tt, files)
  | (files, false) => (Failed WriteFailure, files)
  end.

Definition jar_message (visualizer_path : string) : string :=
  "Error: Jar file not found at " +:+ visualizer_path.

(** Lines 122-124; the function ends there.  [os.path.exists(None)]
    raises [TypeError]. *)
Definition visualize_graph (visualizer_path : option string)
    (script_path : string) (files : fs) : list event -> result unit * list event :=
  fun tr =>
    match visualizer_path with
    | None => (Failed TypeError, tr)
    | Some path =>
        if path_exists path files then (Done tt, tr)
        else (Done tt, tr ++ [PrintLine (jar_message path)])
    end.

(** [build_dependency_graph] as [main] calls it, with the package name
    the configuration gave.  Without a name ([None]) the first call
    returns at once when [max_depth < 1]; otherwise it goes on to
    [subprocess.run(["pip", "show", None], ...)], which raises
    [TypeError] before any process is started. *)
Definition build_graph_of (package_name : option string) (max_depth : Z)
    : list event -> option (result (list string) * list event) :=
  fun tr =>
    match package_name with
    | None =>
        if (1 >? max_depth)%Z then Some (Done [], tr)
        else Some (Failed TypeError, tr)
    | Some name =>
        match build_dependency_graph pip_show max_depth name tr with
        | Some (Return graph, tr) => Some (Done graph, tr)
        | Some (Raise e, tr) => Some (Failed (LookupFailure e), tr)
        | None => None
        end
    end.

(** Lines 134-146. *)
Definition main (config_path : string) (files : fs) (tr : list event)
    : option (result unit * list event * fs) :=
  match parse_xml_config config_path files with
  | Failed f => Some (Failed f, tr, files)
  | Done config =>
      let package_name := cfg_package_name config in
      let max_depth := cfg_max_depth config in
      let visualizer_path := cfg_visualizer_path config in
      match build_graph_of package_name max_depth tr with
      | None => None
      | Some (Failed f, tr) => Some (Failed f, tr, files)
      | Some (Done graph, tr) =>
          let plantuml_script := generate_plantuml_script graph in
          let script_path := "dependency_graph.puml" in
          match save_plantuml_script plantuml_script script_path files with
          | (Failed f, files) => Some (Failed f, tr, files)
          | (Done _, files) =>
              match visualize_graph visualizer_path script_path files tr with
              | (r, tr) => Some (r, tr, files)
              end
          end
      end
  end.

End Program.

(** ** A file system and a configuration for the examples *)

(** Files as a list of paths with their contents, the last written
    first. *)
Definition example_fs : Type := list (string * string).

Definition example_write (path content : string) (files : example_fs)
    : example_fs * bool :=
  ((path, content) :: files, true).

Definition example_exists (path : string) (files : example_fs) : bool :=
  existsb (fun f => String.eqb (fst f) path) files.

Definition example_root : list child :=
  [Child "visualizer_path" (Some "plantuml.jar");
   Child "package_name" (Some "X");
   Child "max_depth" (Some "2");
   Child "repository_url" (Some "https://example.org/simple")].

Definition example_parse (path : string) (files : example_fs)
    : option (list child) :=
  if String.eqb path "config.xml" then Some example_root else None.

Definition example_int (t : string) : option Z :=
  if String.eqb t "2" then Some 2%Z else None.

(** * Properties *)

#[local] Arguments String.append : simpl nomatch.

(** ** Strings *)

Module PyStrFacts.
Import PyStr.

Lemma string_app_assoc (a b c : string) : (a +:+ b) +:+ c = a +:+ (b +:+ c).
Proof. induction a as [|x a IH]; simpl; [reflexivity | now rewrite IH]. Qed.

Lemma string_app_empty_r (a : string) : a +:+ EmptyString = a.
Proof. induction a as [|x a IH]; simpl; [reflexivity | now rewrite IH]. Qed.

Lemma truthy_app_l (a b : string) : truthy a = true -> truthy (a +:+ b) = true.
Proof. now destruct a. Qed.

Lemma truthy_app_r (a b : string) : truthy b = true -> truthy (a +:+ b) = true.
Proof. now destruct a. Qed.

(** *** Character classes *)

Lemma chars_all_app f (a b : string) :
  chars_all f (a +:+ b) = chars_all f a && chars_all f b.
Proof.
  unfold chars_all. induction a as [|x a IH]; simpl; [reflexivity|].
  now rewrite IH, andb_assoc.
Qed.

Lemma chars_all_impl (f g : ascii -> bool) (s : string) :
  (forall c, f c = true -> g c = true) ->
  chars_all f s = true -> chars_all g s = true.
Proof.
  intros Hfg. unfold chars_all. induction s as [|x s IH]; simpl; [reflexivity|].
  intros [Hx Hs]%andb_true_iff. now rewrite (Hfg x Hx), IH.
Qed.

Lemma linebreak_isspace (c : ascii) : is_linebreak c = true -> isspace c = true.
Proof.
  unfold is_linebreak, isspace. generalize (N_of_ascii c). intros n.
  rewrite !orb_true_iff, !andb_true_iff, !N.leb_le, !N.eqb_eq. lia.
Qed.

(** *** strip *)

Lemma lstrip_blank (w s : string) :
  blank w = true -> lstrip (w +:+ s) = lstrip s.
Proof.
  unfold blank, chars_all. induction w as [|x w IH]; simpl; [reflexivity|].
  intros [Hx Hw]%andb_true_iff. rewrite Hx. now apply IH.
Qed.

Lemma lstrip_solid_app (d s : string) :
  truthy d = true -> chars_all no_space d = true ->
  lstrip (d +:+ s) = d +:+ s.
Proof.
  destruct d as [|x d]; [discriminate|]. intros _. unfold chars_all. simpl.
  intros [Hx _]%andb_true_iff. unfold no_space in Hx.
  now apply negb_true_iff in Hx as ->.
Qed.

Lemma rstrip_blank (w : string) : blank w = true -> rstrip w = EmptyString.
Proof.
  unfold blank, chars_all. induction w as [|x w IH]; simpl; [reflexivity|].
  intros [Hx Hw]%andb_true_iff. now rewrite (IH Hw), Hx.
Qed.

Lemma rstrip_app_blank (s w : string) :
  blank w = true -> rstrip (s +:+ w) = rstrip s.
Proof.
  intros Hw. induction s as [|x s IH]; simpl.
  - now apply rstrip_blank.
  - now rewrite IH.
Qed.

Lemma rstrip_app_truthy (a b : string) :
  truthy (rstrip b) = true -> rstrip (a +:+ b) = a +:+ rstrip b.
Proof.
  intros Hb. induction a as [|x a IH]; simpl; [reflexivity|].
  rewrite IH. destruct (a +:+ rstrip b) eqn:Hab; [|reflexivity].
  destruct a; simpl in Hab; [|discriminate]. now rewrite Hab in Hb.
Qed.

Lemma rstrip_solid (s : string) :
  chars_all no_space s = true -> rstrip s = s.
Proof.
  unfold chars_all. induction s as [|x s IH]; simpl; [reflexivity|].
  intros [Hx Hs]%andb_true_iff. rewrite (IH Hs). unfold no_space in Hx.
  apply negb_true_iff in Hx. destruct s; [now rewrite Hx | reflexivity].
Qed.

(** *** split *)

Lemma split_from_nonempty (sep : string) (skip : nat) (s : string) :
  split_from sep skip s <> [].
Proof.
  revert skip. induction s as [|x s IH]; intros skip; cbn [split_from];
    [discriminate|].
  destruct skip as [|k]; [|apply IH].
  destruct (String.prefix sep (String x s)); [discriminate|].
  unfold push. destruct (split_from sep 0 s); discriminate.
Qed.

Lemma prefix_head_ne (h c : ascii) (t s : string) :
  Ascii.eqb c h = false -> String.prefix (String h t) (String c s) = false.
Proof.
  intros Hc. simpl. destruct (ascii_dec h c) as [->|]; [|reflexivity].
  now rewrite Ascii.eqb_refl in Hc.
Qed.

Lemma prefix_app (p a b : string) :
  String.prefix p a = true -> String.prefix p (a +:+ b) = true.
Proof.
  revert a. induction p as [|x p IH]; intros a.
  - intros _. now destruct (a +:+ b).
  - destruct a as [|y a]; simpl; [discriminate|].
    destruct (ascii_dec x y); [apply IH | discriminate].
Qed.

Lemma prefix_self_app (sep rest : string) :
  String.prefix sep (sep +:+ rest) = true.
Proof.
  induction sep as [|x sep IH]; simpl; [now destruct rest|].
  now destruct (ascii_dec x x).
Qed.

Lemma split_from_skip (sep t rest : string) :
  split_from sep (String.length t) (t +:+ rest) = split_from sep 0 rest.
Proof. induction t as [|x t IH]; simpl; [now destruct rest | exact IH]. Qed.

(** At a separator a piece ends. *)
Lemma split_from_sep (h : ascii) (t rest : string) :
  split_from (String h t) 0 (String h t +:+ rest)
  = EmptyString :: split_from (String h t) 0 rest.
Proof.
  change (String h t +:+ rest) with (String h (t +:+ rest)) at 1.
  cbn [split_from].
  change (String h (t +:+ rest)) with (String h t +:+ rest).
  rewrite prefix_self_app. f_equal.
  change (String.length (String h t) - 1)%nat with (String.length t - 0)%nat.
  rewrite Nat.sub_0_r. apply split_from_skip.
Qed.

(** A stretch without the first character of the separator joins the
    piece that follows it. *)
Lemma split_from_solid (h : ascii) (t a rest : string) :
  chars_all (fun c => negb (Ascii.eqb c h)) a = true ->
  split_from (String h t) 0 (a +:+ rest)
  = match split_from (String h t) 0 rest with
    | [] => [a]
    | p :: ps => (a +:+ p) :: ps
    end.
Proof.
  unfold chars_all. induction a as [|x a IH]; intros Ha.
  - simpl. pose proof (split_from_nonempty (String h t) 0 rest).
    now destruct (split_from (String h t) 0 rest).
  - simpl in Ha. apply andb_true_iff in Ha as [Hx Ha].
    apply negb_true_iff in Hx.
    change (String x a +:+ rest) with (String x (a +:+ rest)).
    cbn [split_from]. rewrite (prefix_head_ne _ _ _ _ Hx), (IH Ha).
    now destruct (split_from (String h t) 0 rest).
Qed.

Lemma split_solid (h : ascii) (t a : string) :
  chars_all (fun c => negb (Ascii.eqb c h)) a = true ->
  split (String h t) a = [a].
Proof.
  intros Ha. unfold split.
  rewrite <- (string_app_empty_r a) at 1.
  rewrite (split_from_solid h t a EmptyString Ha). simpl.
  now rewrite string_app_empty_r.
Qed.

Lemma split_colon (label value : string) :
  chars_all no_colon label = true ->
  chars_all no_colon value = true ->
  split ":" (label +:+ ":" +:+ value) = [label; value].
Proof.
  intros Hl Hv. unfold split. rewrite (split_from_solid ":" _ _ _ Hl).
  rewrite (split_from_sep ":" EmptyString value).
  fold (split ":" value).
  now rewrite (split_solid ":" _ _ Hv), string_app_empty_r.
Qed.

Lemma split_comma_cons (a rest : string) :
  chars_all no_comma a = true ->
  split ", " (a +:+ ", " +:+ rest) = a :: split ", " rest.
Proof.
  intros Ha. unfold split. rewrite (split_from_solid "," _ _ _ Ha).
  rewrite (split_from_sep "," " " rest).
  now rewrite string_app_empty_r.
Qed.

Lemma join_cons (sep x : string) (rest : list string) :
  rest <> [] -> join sep (x :: rest) = x +:+ sep +:+ join sep rest.
Proof. now destruct rest. Qed.

Lemma split_join (pieces : list string) :
  pieces <> [] ->
  Forall (fun p => chars_all no_comma p = true) pieces ->
  split ", " (join ", " pieces) = pieces.
Proof.
  induction pieces as [|p rest IH]; intros Hne Hall; [contradiction|].
  apply Forall_cons in Hall as [Hp Hrest].
  destruct rest as [|q rest].
  - simpl. now apply (split_solid ",").
  - rewrite join_cons by discriminate.
    rewrite (split_comma_cons _ _ Hp). f_equal. now apply IH.
Qed.

End PyStrFacts.

(** ** The items of a Requires line *)

Section Items.
Import PyStr PyStrFacts.

Lemma isspace_no_comma c : isspace c = true -> no_comma c = true.
Proof.
  unfold no_comma. destruct (Ascii.eqb_spec c ",") as [->|];
    [discriminate | reflexivity].
Qed.

Lemma isspace_no_colon c : isspace c = true -> no_colon c = true.
Proof.
  unfold no_colon. destruct (Ascii.eqb_spec c ":") as [->|];
    [discriminate | reflexivity].
Qed.

Lemma ident_char_no_comma c : ident_char c = true -> no_comma c = true.
Proof. unfold ident_char. now intros [[_ H]%andb_true_iff _]%andb_true_iff. Qed.

Lemma ident_char_no_colon c : ident_char c = true -> no_colon c = true.
Proof. unfold ident_char. now intros [_ H]%andb_true_iff. Qed.

Lemma ident_char_no_space c : ident_char c = true -> no_space c = true.
Proof. unfold ident_char. now intros [[H _]%andb_true_iff _]%andb_true_iff. Qed.

Lemma item_ok_parts (i : item) :
  item_ok i = true ->
  blank (pad_left i) = true /\ truthy (item_name i) = true
  /\ chars_all ident_char (item_name i) = true /\ blank (pad_right i) = true.
Proof.
  unfold item_ok, identifier. rewrite !andb_true_iff. tauto.
Qed.

(** The text of an item holds neither [f]-forbidden character when
    white space and identifier characters are allowed by [f]. *)
Lemma item_text_chars (f : ascii -> bool) (i : item) :
  (forall c, isspace c = true -> f c = true) ->
  (forall c, ident_char c = true -> f c = true) ->
  item_ok i = true -> chars_all f (item_text i) = true.
Proof.
  intros Hs Hi (Hl & _ & Hn & Hr)%item_ok_parts. unfold item_text.
  rewrite !chars_all_app, !andb_true_iff. split_and!.
  - exact (chars_all_impl _ _ _ Hs Hl).
  - exact (chars_all_impl _ _ _ Hi Hn).
  - exact (chars_all_impl _ _ _ Hs Hr).
Qed.

Lemma item_text_truthy (i : item) :
  item_ok i = true -> truthy (item_text i) = true.
Proof.
  intros (_ & Hn & _)%item_ok_parts. unfold item_text.
  now apply truthy_app_r, truthy_app_l.
Qed.

Lemma strip_item_text (i : item) :
  item_ok i = true -> strip (item_text i) = item_name i.
Proof.
  intros (Hl & Ht & Hn & Hr)%item_ok_parts. unfold strip, item_text.
  pose proof (chars_all_impl _ _ _ ident_char_no_space Hn) as Hsolid.
  rewrite (lstrip_blank _ _ Hl), (lstrip_solid_app _ _ Ht Hsolid).
  rewrite (rstrip_app_blank _ _ Hr). now apply rstrip_solid.
Qed.


Lemma join_tail (rest : list string) :
  exists tl, forall x, join ", " (x :: rest) = x +:+ tl.
Proof.
  destruct rest as [|y rest].
  - exists EmptyString. intros x. simpl. now rewrite string_app_empty_r.
  - exists (", " +:+ join ", " (y :: rest)). intros x.
    now rewrite join_cons by discriminate.
Qed.

(** Trimming on the left only removes the padding of the first item. *)
Lemma lstrip_join (i : item) (rest : list item) :
  item_ok i = true ->
  lstrip (join ", " (List.map item_text (i :: rest)))
  = join ", " (List.map item_text
                 (Item EmptyString (item_name i) (pad_right i) :: rest)).
Proof.
  intros (Hl & Ht & Hn & _)%item_ok_parts. simpl List.map.
  destruct (join_tail (List.map item_text rest)) as [tl Htl].
  rewrite !Htl. unfold item_text. simpl.
  rewrite !string_app_assoc, (lstrip_blank _ _ Hl).
  apply lstrip_solid_app; [exact Ht|].
  exact (chars_all_impl _ _ _ ident_char_no_space Hn).
Qed.




End Items.

(** ** get_dependencies *)

Section Parsing.
Import PyStr PyStrFacts.

Lemma scan_lines_skip (before rest : list string) :
  Forall (fun line => startswith "Requires" line = false) before ->
  scan_lines (before ++ rest) = scan_lines rest.
Proof.
  induction 1 as [|line before Hline _ IH]; [reflexivity|].
  cbn [app scan_lines]. now rewrite Hline.
Qed.

Lemma scan_lines_field (label value : string) (after : list string) :
  startswith "Requires" label = true ->
  chars_all no_colon label = true ->
  chars_all no_colon value = true ->
  scan_lines ((label +:+ ":" +:+ value) :: after)
  = if truthy (strip value)
    then Return (List.map strip (List.filter truthy (split ", " (strip value))))
    else Return [].
Proof.
  intros Hlabel Hl Hv. cbn [scan_lines]. unfold startswith in *.
  now rewrite (prefix_app _ _ _ Hlabel), (split_colon _ _ Hl Hv).
Qed.

Lemma chars_all_join (f : ascii -> bool) (pieces : list string) :
  chars_all f ", " = true ->
  Forall (fun p => chars_all f p = true) pieces ->
  chars_all f (join ", " pieces) = true.
Proof.
  intros Hsep. induction 1 as [|p rest Hp Hrest IH]; [reflexivity|].
  destruct rest as [|q rest]; [exact Hp|].
  rewrite join_cons by discriminate.
  now rewrite !chars_all_app, Hp, Hsep, IH.
Qed.



End Parsing.




(** C4, as it holds.  When the query exits with a non-zero status, which
    is what [pip show] does for a package that is not installed,
    [get_dependencies] prints its diagnostic and returns the empty
    list. *)
Theorem nonzero_exit_fails_soft (pip_show : string -> process)
    (package_name : string) (returncode : Z) (stdout : string)
    (tr : list event) :
  pip_show package_name = Exited returncode stdout ->
  returncode <> 0%Z ->
  get_dependencies pip_show package_name tr
  = (Return [],
     tr ++ [RunPip package_name; PrintLine (error_message package_name)]).
Proof.
  intros Hrun Hrc. unfold get_dependencies. rewrite Hrun.
  apply Z.eqb_neq in Hrc. rewrite Hrc.
  now rewrite <- (assoc_L (++)).
Qed.

Lemma nonzero_exit_fails_soft_witness :
  get_dependencies pip_cycle "requests" []
  = (Return [],
     [RunPip "requests";
      PrintLine "Error: Could not fetch dependencies for requests"]).
Proof.
  apply (nonzero_exit_fails_soft pip_cycle "requests" 1 EmptyString []);
    [reflexivity | lia].
Defined.

(** C4, as the claim has it, fails: when [pip] cannot be started the
    query has failed, yet nothing is printed and the error leaves
    [get_dependencies]. *)
Lemma pip_unavailable_raises :
  query_failed (no_pip "requests")
  /\ get_dependencies no_pip "requests" []
     = (Raise FileNotFoundError, [RunPip "requests"])
  /\ printed (snd (get_dependencies no_pip "requests" [])) = []
  /\ get_dependencies no_pip "requests" []
     <> (Return [],
         [RunPip "requests"; PrintLine (error_message "requests")]).
Proof. split_and!; [exact I | reflexivity | reflexivity | discriminate]. Qed.

(** ** generate_plantuml_script *)

Section Rendering.
Import PyStr PyStrFacts.

Lemma fold_left_script (graph : list string) (script : string) :
  fold_left (fun script relation => script +:+ (relation +:+ nl)) graph script
  = script +:+ fold_right (fun relation rest => relation +:+ nl +:+ rest)
                          EmptyString graph.
Proof.
  revert script. induction graph as [|r graph IH]; intros script; simpl.
  - now rewrite string_app_empty_r.
  - now rewrite IH, !string_app_assoc.
Qed.

Lemma fold_right_lines_app (graph : list string) (tail : string) :
  fold_right (fun relation rest => relation +:+ nl +:+ rest)
             EmptyString graph +:+ tail
  = fold_right (fun relation rest => relation +:+ nl +:+ rest) tail graph.
Proof.
  induction graph as [|r graph IH]; [reflexivity|].
  cbn [fold_right]. now rewrite !string_app_assoc, IH.
Qed.

(** The script is the start marker, the relations in order, each on a
    line of its own, and the end marker. *)
Lemma generate_plantuml_script_eq (graph : list string) :
  generate_plantuml_script graph
  = "@startuml" +:+ nl
    +:+ fold_right (fun relation rest => relation +:+ nl +:+ rest)
                   "@enduml" graph.
Proof.
  unfold generate_plantuml_script. rewrite fold_left_script.
  now rewrite !string_app_assoc, fold_right_lines_app.
Qed.

Lemma no_linebreak_not_CR (c : ascii) :
  no_linebreak c = true -> Ascii.eqb c CR = false.
Proof.
  unfold no_linebreak. destruct (Ascii.eqb_spec c CR) as [->|];
    [discriminate | reflexivity].
Qed.

Lemma splitlines_line (r rest : string) :
  chars_all no_linebreak r = true ->
  splitlines (r +:+ nl +:+ rest) = r :: splitlines rest.
Proof.
  unfold chars_all. induction r as [|x r IH]; intros Hr; [reflexivity|].
  simpl in Hr. apply andb_true_iff in Hr as [Hx Hr].
  change (String x r +:+ nl +:+ rest) with (String x (r +:+ nl +:+ rest)).
  cbn [splitlines]. rewrite (no_linebreak_not_CR _ Hx), (IH Hr).
  unfold no_linebreak in Hx. apply negb_true_iff in Hx. now rewrite Hx.
Qed.

Lemma splitlines_script (graph : list string) :
  Forall (fun r => chars_all no_linebreak r = true) graph ->
  splitlines (generate_plantuml_script graph)
  = "@startuml" :: graph ++ ["@enduml"].
Proof.
  intros Hall. rewrite generate_plantuml_script_eq.
  rewrite (splitlines_line "@startuml") by reflexivity. f_equal.
  induction Hall as [|r graph Hr _ IH]; [reflexivity|].
  cbn [fold_right]. now rewrite (splitlines_line _ _ Hr), IH.
Qed.

Lemma fold_right_edges (edges : list (string * string)) (tail : string) :
  fold_right (fun relation rest => relation +:+ nl +:+ rest) tail
             (List.map (fun e => relation (fst e) (snd e)) edges)
  = fold_right (fun e rest => fst e +:+ " --> " +:+ snd e +:+ nl +:+ rest)
               tail edges.
Proof.
  induction edges as [|[a b] edges IH]; [reflexivity|].
  cbn [List.map fold_right fst snd]. unfold relation at 1.
  now rewrite !string_app_assoc, IH.
Qed.

End Rendering.

(** C8.  The script of a list of edges is the line "@startuml", then one
    line "<from> --> <to>" per edge in the order of the list, then
    "@enduml"; read back line by line it is the start marker, the
    relations and the end marker; for [(A,B); (A,C)] it is the four lines
    "@startuml", "A --> B", "A --> C", "@enduml"; and equal lists give
    equal scripts. *)
Theorem render_layout (edges : list (string * string)) :
  let graph := List.map (fun e => relation (fst e) (snd e)) edges in
  generate_plantuml_script graph
  = "@startuml" +:+ nl
    +:+ fold_right (fun e rest => fst e +:+ " --> " +:+ snd e +:+ nl +:+ rest)
                   "@enduml" edges
  /\ (Forall (fun r => chars_all no_linebreak r = true) graph ->
      PyStr.splitlines (generate_plantuml_script graph)
      = "@startuml" :: graph ++ ["@enduml"])
  /\ (forall A B C : string,
         generate_plantuml_script [relation A B; relation A C]
         = "@startuml" +:+ nl +:+ A +:+ " --> " +:+ B +:+ nl
           +:+ A +:+ " --> " +:+ C +:+ nl +:+ "@enduml")
  /\ (forall edges' : list (string * string),
         edges' = edges ->
         generate_plantuml_script
           (List.map (fun e => relation (fst e) (snd e)) edges')
         = generate_plantuml_script graph).
Proof.
  intros graph. split_and!.
  - unfold graph. now rewrite generate_plantuml_script_eq, fold_right_edges.
  - apply splitlines_script.
  - intros A B C. rewrite generate_plantuml_script_eq. cbn [fold_right].
    unfold relation. now rewrite !PyStrFacts.string_app_assoc.
  - now intros edges' ->.
Qed.

Lemma render_layout_witness :
  PyStr.splitlines (generate_plantuml_script ["A --> B"; "A --> C"])
  = ["@startuml"; "A --> B"; "A --> C"; "@enduml"].
Proof.
  apply (proj1 (proj2 (render_layout [("A", "B"); ("A", "C")]))).
  repeat constructor.
Defined.

(** C10.  The script of the empty graph is the start marker, a line
    feed and the end marker, with nothing after it. *)
Theorem render_empty :
  generate_plantuml_script [] = "@startuml" +:+ nl +:+ "@enduml".
Proof. reflexivity. Qed.

(** Membership goals over [visited], by unfolding the set operations. *)
Ltac sets := set_unfold; intuition (subst; eauto; congruence).

(** ** Lookups *)

Section LookupFacts.

Variable pip_show : string -> process.

Lemma get_dependencies_eq (pkg : string) (tr : list event) :
  get_dependencies pip_show pkg tr
  = (lookup_result pip_show pkg, tr ++ lookup_events pip_show pkg).
Proof.
  unfold lookup_result, lookup_events, get_dependencies.
  destruct (pip_show pkg) as [rc out|]; [destruct (rc =? 0)%Z|];
    simpl; rewrite <- ?(assoc_L (++)); reflexivity.
Qed.

Lemma lookups_app (tr1 tr2 : list event) :
  lookups (tr1 ++ tr2) = lookups tr1 ++ lookups tr2.
Proof. apply omap_app. Qed.

Lemma lookups_lookup_events (pkg : string) :
  lookups (lookup_events pip_show pkg) = [pkg].
Proof.
  unfold lookup_events, get_dependencies.
  destruct (pip_show pkg) as [rc out|]; [destruct (rc =? 0)%Z|]; reflexivity.
Qed.

End LookupFacts.

(** ** The traversal returns *)

Section Fuel.

Variable pip_show : string -> process.
Variable max_depth : Z.

Lemma for_deps_is_Some recur pkg d ds :
  (forall dep l tr, is_Some (recur dep (d + 1)%Z l tr)) ->
  forall l tr, is_Some (for_deps recur pkg d ds l tr).
Proof.
  intros Hrec. induction ds as [|dep rest IH]; intros l tr; simpl.
  - eauto.
  - destruct (Hrec dep (Locals (graph l ++ [relation pkg dep]) (visited l)) tr)
      as [[[l'|e] tr'] ->]; [apply IH | eauto].
Qed.

(** A call at depth [d] needs [max_depth + 1 - d] nested calls at
    most, whatever the package manager answers. *)
Lemma add_dependencies_fuel (fuel : nat) :
  forall pkg d l tr,
    (Z.to_nat (max_depth + 1 - d) < fuel)%nat ->
    is_Some (add_dependencies pip_show max_depth fuel pkg d l tr).
Proof.
  induction fuel as [|fuel IH]; intros pkg d l tr Hfuel; [lia|].
  simpl. destruct (d >? max_depth)%Z eqn:Hd; simpl; [eauto|].
  destruct (bool_decide _); [eauto|].
  destruct (get_dependencies pip_show pkg tr) as [[ds|e] tr1]; [|eauto].
  apply for_deps_is_Some. intros dep l' tr'. apply IH.
  rewrite Z.gtb_ltb in Hd. apply Z.ltb_ge in Hd. lia.
Qed.

Lemma for_deps_more recur recur' pkg d ds :
  (forall dep l tr r,
      recur dep (d + 1)%Z l tr = Some r -> recur' dep (d + 1)%Z l tr = Some r) ->
  forall l tr r,
    for_deps recur pkg d ds l tr = Some r ->
    for_deps recur' pkg d ds l tr = Some r.
Proof.
  intros Hrec. induction ds as [|dep rest IH]; intros l tr r; simpl; [auto|].
  destruct (recur dep (d + 1)%Z _ tr) as [[[l1|e] tr1]|] eqn:Hcall;
    intros Hr; [| |discriminate]; rewrite (Hrec _ _ _ _ Hcall); auto.
Qed.

(** A run that returns with some budget returns the same with any
    larger one: the budget of [build_dependency_graph] is immaterial. *)
Lemma add_dependencies_more_fuel (fuel : nat) :
  forall fuel' pkg d l tr r,
    (fuel <= fuel')%nat ->
    add_dependencies pip_show max_depth fuel pkg d l tr = Some r ->
    add_dependencies pip_show max_depth fuel' pkg d l tr = Some r.
Proof.
  induction fuel as [|fuel IH]; intros fuel' pkg d l tr r Hle; [discriminate|].
  destruct fuel' as [|fuel']; [lia|]. simpl.
  destruct ((d >? max_depth)%Z || bool_decide (pkg ∈ visited l)); [auto|].
  destruct (get_dependencies pip_show pkg tr) as [[ds|e] tr1]; [|auto].
  apply for_deps_more. intros dep l' tr' r'. apply IH. lia.
Qed.

Lemma build_dependency_graph_is_Some (root : string) (tr : list event) :
  is_Some (build_dependency_graph pip_show max_depth root tr).
Proof.
  unfold build_dependency_graph.
  destruct (add_dependencies_fuel (S (Z.to_nat max_depth)) root 1
              (Locals [] ∅) tr) as [[[l|e] tr'] ->]; [|eauto..].
  replace (max_depth + 1 - 1)%Z with max_depth by lia. lia.
Qed.

End Fuel.

(** ** The traversal over a dependency relation *)

Lemma edges_of_app deps qs1 qs2 :
  edges_of deps (qs1 ++ qs2) = edges_of deps qs1 ++ edges_of deps qs2.
Proof. apply flat_map_app. Qed.

Lemma elem_of_edges_of deps qs e :
  e ∈ edges_of deps qs <->
  exists p d, e = relation p d /\ p ∈ qs /\ d ∈ deps p.
Proof.
  unfold edges_of. rewrite list_elem_of_In, in_flat_map. split.
  - intros (p & Hp & He). apply in_map_iff in He as (d & <- & Hd).
    exists p, d. rewrite !list_elem_of_In. auto.
  - intros (p & d & -> & Hp & Hd). exists p. rewrite <- list_elem_of_In.
    split; [assumption|]. apply in_map. apply list_elem_of_In, Hd.
Qed.

Lemma locals_same (l : locals) :
  Locals (graph l ++ []) (list_to_set (lookups []) ∪ visited l) = l.
Proof.
  destruct l as [g v]. simpl. rewrite app_nil_r. f_equal. sets.
Qed.

Lemma run_eq (g g' : list string) (v v' : gset string) (tr tr' : list event) :
  g = g' -> v = v' -> tr = tr' ->
  Some (Return (Locals g v), tr) = Some (Return (Locals g' v'), tr').
Proof. congruence. Qed.

Lemma traversed_skip deps starts (l : locals) (tr : list event) :
  traversed deps starts [] l tr (Some (Return l, tr)).
Proof.
  exists [], []. rewrite locals_same, app_nil_r. simpl.
  split_and!; [reflexivity | constructor | sets | reflexivity | sets].
Qed.

Section Traversed.

Variable pip_show : string -> process.
Variable max_depth : Z.
Variable deps : string -> list string.
Hypothesis Hdeps : dependency_relation pip_show deps.

Lemma for_deps_traversed recur pkg d ds :
  (forall dep l tr, traversed deps [dep] [] l tr (recur dep (d + 1)%Z l tr)) ->
  forall l tr,
    traversed deps ds (List.map (relation pkg) ds) l tr
              (for_deps recur pkg d ds l tr).
Proof.
  intros Hrec. induction ds as [|dep rest IH]; intros l tr.
  - apply traversed_skip.
  - simpl.
    destruct (Hrec dep (Locals (graph l ++ [relation pkg dep]) (visited l)) tr)
      as (es1 & trn1 & -> & Hnd1 & Hnew1 & Hperm1 & Hin1).
    simpl in *.
    destruct (IH (Locals ((graph l ++ [relation pkg dep]) ++ es1)
                         (list_to_set (lookups trn1) ∪ visited l))
                 (tr ++ trn1))
      as (es2 & trn2 & -> & Hnd2 & Hnew2 & Hperm2 & Hin2).
    simpl in *.
    exists (relation pkg dep :: es1 ++ es2), (trn1 ++ trn2).
    rewrite lookups_app, edges_of_app. split_and!.
    + apply run_eq; [now rewrite <- !(assoc_L (++)) | sets | now rewrite (assoc_L (++))].
    + apply NoDup_app. repeat split; [assumption| |assumption].
      intros q Hq1 Hq2. apply (Hnew2 q Hq2). sets.
    + intros q Hq. apply elem_of_app in Hq as [Hq|Hq]; [auto|].
      specialize (Hnew2 q Hq). sets.
    + rewrite Hperm1, Hperm2. simpl. constructor.
      rewrite !(assoc_L (++)). apply Permutation_app_tail, Permutation_app_comm.
    + intros U Hs Hcl q Hq. apply elem_of_app in Hq as [Hq|Hq].
      * apply (Hin1 U); [|assumption..]. intros q' Hq'. apply Hs. sets.
      * apply (Hin2 U); [|assumption..]. intros q' Hq'. apply Hs. sets.
Qed.

Lemma add_dependencies_traversed (fuel : nat) :
  forall pkg d l tr,
    (Z.to_nat (max_depth + 1 - d) < fuel)%nat ->
    traversed deps [pkg] [] l tr
              (add_dependencies pip_show max_depth fuel pkg d l tr).
Proof.
  induction fuel as [|fuel IH]; intros pkg d l tr Hfuel; [lia|].
  simpl. destruct (d >? max_depth)%Z eqn:Hd; simpl; [apply traversed_skip|].
  destruct (bool_decide _) eqn:Hv; [apply traversed_skip|].
  apply bool_decide_eq_false in Hv.
  rewrite Z.gtb_ltb in Hd. apply Z.ltb_ge in Hd.
  rewrite get_dependencies_eq, Hdeps.
  destruct (for_deps_traversed (add_dependencies pip_show max_depth fuel)
              pkg d (deps pkg)) with
      (l := Locals (graph l) ({[pkg]} ∪ visited l))
      (tr := tr ++ lookup_events pip_show pkg)
    as (es & trn & -> & Hnd & Hnew & Hperm & Hin).
  { intros dep l' tr'. apply IH. lia. }
  simpl in *.
  exists es, (lookup_events pip_show pkg ++ trn).
  rewrite lookups_app, lookups_lookup_events. simpl. split_and!.
  - apply run_eq; [reflexivity | sets | now rewrite (assoc_L (++))].
  - constructor; [|assumption]. intros Hq. specialize (Hnew pkg Hq). sets.
  - intros q Hq. apply elem_of_cons in Hq as [->|Hq]; [assumption|].
    specialize (Hnew q Hq). sets.
  - exact Hperm.
  - intros U Hs Hcl q Hq. apply elem_of_cons in Hq as [->|Hq].
    + apply Hs. sets.
    + apply (Hin U); [|assumption..]. intros q' Hq'.
      apply (Hcl pkg); [apply Hs; sets | assumption].
Qed.

Lemma build_dependency_graph_traversed (root : string) (tr : list event) :
  exists (g : list string) (trn : list event),
    build_dependency_graph pip_show max_depth root tr
    = Some (Return g, tr ++ trn)
    /\ NoDup (lookups trn)
    /\ g ≡ₚ edges_of deps (lookups trn)
    /\ (forall U : gset string,
          root ∈ U -> (forall p q, p ∈ U -> q ∈ deps p -> q ∈ U) ->
          forall q, q ∈ lookups trn -> q ∈ U).
Proof.
  unfold build_dependency_graph.
  destruct (add_dependencies_traversed (S (Z.to_nat max_depth)) root 1
              (Locals [] ∅) tr) as (es & trn & -> & Hnd & _ & Hperm & Hin).
  { replace (max_depth + 1 - 1)%Z with max_depth by lia. lia. }
  exists es, trn. simpl. split_and!; [reflexivity | assumption..|].
  intros U Hroot. apply Hin. intros q Hq. sets.
Qed.

End Traversed.

(** ** One call at a time *)

Section Steps.

Variable pip_show : string -> process.
Variable max_depth : Z.

Lemma add_dependencies_skip fuel pkg d l tr :
  (max_depth < d)%Z \/ pkg ∈ visited l ->
  add_dependencies pip_show max_depth (S fuel) pkg d l tr = Some (Return l, tr).
Proof.
  intros H. simpl.
  destruct (d >? max_depth)%Z eqn:Hd; [reflexivity|].
  rewrite Z.gtb_ltb in Hd. apply Z.ltb_ge in Hd.
  destruct H as [H|H]; [lia|]. now rewrite bool_decide_eq_true_2.
Qed.

Lemma add_dependencies_expand fuel pkg d l tr ds :
  (d <= max_depth)%Z -> pkg ∉ visited l ->
  lookup_result pip_show pkg = Return ds ->
  add_dependencies pip_show max_depth (S fuel) pkg d l tr
  = for_deps (add_dependencies pip_show max_depth fuel) pkg d ds
             (Locals (graph l) ({[pkg]} ∪ visited l))
             (tr ++ lookup_events pip_show pkg).
Proof.
  intros Hd Hv Hds. simpl.
  replace (d >? max_depth)%Z with false
    by (symmetry; rewrite Z.gtb_ltb; apply Z.ltb_ge; lia).
  rewrite bool_decide_eq_false_2 by assumption. simpl.
  now rewrite get_dependencies_eq, Hds.
Qed.

Lemma add_dependencies_raise fuel pkg d l tr e :
  (d <= max_depth)%Z -> pkg ∉ visited l ->
  lookup_result pip_show pkg = Raise e ->
  add_dependencies pip_show max_depth (S fuel) pkg d l tr
  = Some (Raise e, tr ++ lookup_events pip_show pkg).
Proof.
  intros Hd Hv He. simpl.
  replace (d >? max_depth)%Z with false
    by (symmetry; rewrite Z.gtb_ltb; apply Z.ltb_ge; lia).
  rewrite bool_decide_eq_false_2 by assumption. simpl.
  now rewrite get_dependencies_eq, He.
Qed.

(** A loop whose recursive calls all return at once only appends the
    edges of its package. *)
Lemma for_deps_leaves recur pkg d ds :
  (forall dep l tr, recur dep (d + 1)%Z l tr = Some (Return l, tr)) ->
  forall l tr,
    for_deps recur pkg d ds l tr
    = Some (Return (Locals (graph l ++ List.map (relation pkg) ds) (visited l)),
            tr).
Proof.
  intros Hrec. induction ds as [|dep rest IH]; intros [g v] tr; simpl.
  - now rewrite app_nil_r.
  - rewrite Hrec, IH. simpl. now rewrite <- (assoc_L (++)).
Qed.

End Steps.

Lemma lookup_events_cons pip_show pkg d ds :
  lookup_result pip_show pkg = Return (d :: ds) ->
  lookup_events pip_show pkg = [RunPip pkg].
Proof.
  unfold lookup_result, lookup_events, get_dependencies.
  destruct (pip_show pkg) as [rc out|]; [destruct (rc =? 0)%Z|]; simpl;
    [reflexivity | discriminate | discriminate].
Qed.

(** ** The claims on [build_dependency_graph] *)


(** C1.  When [A] depends on [B] and [B] on [A], [build_dependency_graph]
    with [max_depth = 5] returns exactly the two edges [A --> B] and
    [B --> A], after exactly one lookup of [A] and one of [B]. *)
Theorem cycle_two_edges (pip_show : string -> process) (A B : string)
    (tr : list event) :
  A <> B ->
  lookup_result pip_show A = Return [B] ->
  lookup_result pip_show B = Return [A] ->
  build_dependency_graph pip_show 5 A tr
  = Some (Return [relation A B; relation B A], tr ++ [RunPip A; RunPip B]).
Proof.
  intros HAB HA HB. unfold build_dependency_graph.
  change (S (Z.to_nat 5)) with 6%nat.
  rewrite (add_dependencies_expand _ _ 5 _ _ _ _ [B]); [|lia|sets|exact HA].
  rewrite (lookup_events_cons _ _ _ _ HA). cbn [for_deps graph visited].
  rewrite (add_dependencies_expand _ _ 4 _ _ _ _ [A]); [|lia|sets|exact HB].
  rewrite (lookup_events_cons _ _ _ _ HB). cbn [for_deps graph visited].
  rewrite (add_dependencies_skip _ _ 3) by (right; sets).
  cbn [graph]. now rewrite <- !(assoc_L (++)).
Qed.

Lemma cycle_two_edges_witness :
  build_dependency_graph pip_cycle 5 "A" []
  = Some (Return ["A --> B"; "B --> A"], [RunPip "A"; RunPip "B"]).
Proof.
  apply (cycle_two_edges pip_cycle "A" "B" []);
    [discriminate | reflexivity | reflexivity].
Defined.

(** C2.  With lookup(X) = [Y, Z], lookup(Y) = [W], lookup(Z) = [] and
    [max_depth = 2] the graph holds exactly the edges (X,Y), (Y,W) and
    (X,Z), in this order, which is the order of discovery: depth first,
    dependencies in list order.  The packages looked up are X, Y and Z:
    [W] is reached at depth 3 and is not expanded. *)
Theorem example_xyz (pip_show : string -> process) (X Y Z W : string)
    (tr : list event) :
  lookup_result pip_show X = Return [Y; Z] ->
  lookup_result pip_show Y = Return [W] ->
  lookup_result pip_show Z = Return [] ->
  W <> X -> W <> Y -> W <> Z ->
  exists (g : list string) (trn : list event),
    build_dependency_graph pip_show 2 X tr = Some (Return g, tr ++ trn)
    /\ g = [relation X Y; relation Y W; relation X Z]
    /\ g ≡ₚ [relation X Y; relation X Z; relation Y W]
    /\ lookups trn = [X; Y; Z]
    /\ W ∉ lookups trn.
Proof.
  intros HX HY HZ HWX HWY HWZ.
  assert (X <> Y) by (intros ->; congruence).
  assert (X <> Z) by (intros ->; congruence).
  assert (Y <> Z) by (intros ->; congruence).
  exists [relation X Y; relation Y W; relation X Z],
         ([RunPip X; RunPip Y] ++ lookup_events pip_show Z).
  rewrite lookups_app, lookups_lookup_events. simpl.
  split_and!; [|reflexivity|constructor; apply perm_swap|reflexivity|sets].
  unfold build_dependency_graph. change (S (Z.to_nat 2)) with 3%nat.
  rewrite (add_dependencies_expand _ _ 2 _ _ _ _ [Y; Z]); [|lia|sets|exact HX].
  rewrite (lookup_events_cons _ _ _ _ HX). cbn [for_deps graph visited].
  rewrite (add_dependencies_expand _ _ 1 _ _ _ _ [W]); [|lia|sets|exact HY].
  rewrite (lookup_events_cons _ _ _ _ HY). cbn [for_deps graph visited].
  rewrite (add_dependencies_skip _ _ 0) by (left; lia).
  rewrite (add_dependencies_expand _ _ 1 _ _ _ _ []); [|lia|sets|exact HZ].
  cbn [for_deps graph]. now rewrite <- !(assoc_L (++)).
Qed.

Lemma example_xyz_witness :
  exists (g : list string) (trn : list event),
    build_dependency_graph pip_xyz 2 "X" [] = Some (Return g, trn)
    /\ g = ["X --> Y"; "Y --> W"; "X --> Z"]
    /\ g ≡ₚ ["X --> Y"; "X --> Z"; "Y --> W"]
    /\ lookups trn = ["X"; "Y"; "Z"]
    /\ "W" ∉ lookups trn.
Proof.
  apply (example_xyz pip_xyz "X" "Y" "Z" "W" []);
    first [reflexivity | discriminate].
Defined.

(** C6.  With [max_depth = 1] only the root is looked up, and the graph
    is the list of the root's own edges: every edge has the root as its
    source. *)
Theorem depth_one_root_edges (pip_show : string -> process)
    (deps : string -> list string) (root : string) (tr : list event) :
  dependency_relation pip_show deps ->
  exists g,
    build_dependency_graph pip_show 1 root tr
    = Some (Return g, tr ++ lookup_events pip_show root)
    /\ g = List.map (relation root) (deps root)
    /\ lookups (lookup_events pip_show root) = [root]
    /\ forall e, e ∈ g -> exists d, d ∈ deps root /\ e = relation root d.
Proof.
  intros Hdeps. exists (List.map (relation root) (deps root)).
  split_and!; [|reflexivity|apply lookups_lookup_events|].
  - unfold build_dependency_graph. change (S (Z.to_nat 1)) with 2%nat.
    rewrite (add_dependencies_expand _ _ 1 _ _ _ _ (deps root));
      [|lia|sets|apply Hdeps].
    rewrite for_deps_leaves; [reflexivity|].
    intros dep l' tr'. apply (add_dependencies_skip _ _ 0). left. lia.
  - intros e He. apply list_elem_of_In, in_map_iff in He as (d & <- & Hd).
    exists d. split; [now apply list_elem_of_In | reflexivity].
Qed.

(** C9.  With [max_depth <= 0] the graph is empty and the trace is
    unchanged: nothing is looked up, not even the root. *)
Theorem nonpositive_depth_empty (pip_show : string -> process)
    (max_depth : Z) (root : string) (tr : list event) :
  (max_depth <= 0)%Z ->
  build_dependency_graph pip_show max_depth root tr = Some (Return [], tr).
Proof.
  intros Hmax. unfold build_dependency_graph.
  rewrite add_dependencies_skip by (left; lia). reflexivity.
Qed.

Lemma nonpositive_depth_empty_witness :
  build_dependency_graph pip_xyz 0 "X" [] = Some (Return [], []).
Proof. apply (nonpositive_depth_empty pip_xyz 0 "X" []). lia. Defined.


(** Where a lookup raises, the traversal raises with it: the hypothesis
    that lookups return cannot be dropped above. *)
Lemma build_raises_with_lookup (pip_show : string -> process)
    (max_depth : Z) (root : string) (tr : list event) (e : exn) :
  (1 <= max_depth)%Z ->
  lookup_result pip_show root = Raise e ->
  build_dependency_graph pip_show max_depth root tr
  = Some (Raise e, tr ++ lookup_events pip_show root).
Proof.
  intros Hmax He. unfold build_dependency_graph.
  rewrite (add_dependencies_raise _ _ _ _ _ _ _ e); [reflexivity|lia|sets|exact He].
Qed.

(** ** The call log *)

Section Calls.

Variable pip_show : string -> process.
Variable max_depth : Z.

(** *** The log changes nothing *)

Lemma for_deps_calls_erase recur recur_c pkg d ds :
  (forall dep l tr cs,
      recur dep (d + 1)%Z l tr = option_map fst (recur_c dep (d + 1)%Z l tr cs)) ->
  forall l tr cs,
    for_deps recur pkg d ds l tr
    = option_map fst (for_deps_calls recur_c pkg d ds l tr cs).
Proof.
  intros Hrec. induction ds as [|dep rest IH]; intros l tr cs; simpl.
  - reflexivity.
  - rewrite (Hrec _ _ _ cs).
    destruct (recur_c dep (d + 1)%Z _ tr cs) as [[[[l'|e] tr'] cs']|]; simpl;
      [apply IH | reflexivity | reflexivity].
Qed.

Lemma add_dependencies_calls_erase (fuel : nat) :
  forall pkg d l tr cs,
    add_dependencies pip_show max_depth fuel pkg d l tr
    = option_map fst
        (add_dependencies_calls pip_show max_depth fuel pkg d l tr cs).
Proof.
  induction fuel as [|fuel IH]; intros pkg d l tr cs; simpl; [reflexivity|].
  destruct ((d >? max_depth)%Z || bool_decide (pkg ∈ visited l));
    [reflexivity|].
  destruct (get_dependencies pip_show pkg tr) as [[ds|e] tr1];
    [|reflexivity].
  apply for_deps_calls_erase. intros dep l' tr' cs'. apply IH.
Qed.

Lemma build_dependency_graph_calls_erase (root : string) (tr : list event) :
  build_dependency_graph pip_show max_depth root tr
  = option_map fst (build_dependency_graph_calls pip_show max_depth root tr).
Proof.
  unfold build_dependency_graph, build_dependency_graph_calls.
  rewrite (add_dependencies_calls_erase _ _ _ _ _ []).
  destruct (add_dependencies_calls _ _ _ _ _ _ _ _)
    as [[[[l'|e] tr'] cs']|]; reflexivity.
Qed.

(** *** What the log says *)

Lemma first_in_depth_expanded_snoc (cs : list call) (c : call) :
  first_in_depth_expanded max_depth cs ->
  (call_expanded c = true <->
   (call_depth c <= max_depth)%Z /\
   forall c', c' ∈ cs -> call_pkg c' = call_pkg c ->
              (max_depth < call_depth c')%Z) ->
  first_in_depth_expanded max_depth (cs ++ [c]).
Proof.
  intros Hcs Hc i c0 Hi.
  destruct (decide (i < length cs)%nat) as [Hlt|Hge].
  - rewrite lookup_app_l in Hi by exact Hlt.
    rewrite (Hcs i c0 Hi). split; intros [Hd Hbefore]; (split; [exact Hd|]);
      intros j c' Hj Hc' Hpkg; apply (Hbefore j c' Hj); try exact Hpkg.
    + rewrite lookup_app_l in Hc' by lia. exact Hc'.
    + rewrite lookup_app_l by lia. exact Hc'.
  - assert (i = length cs) as ->.
    { apply lookup_lt_Some in Hi. rewrite length_app in Hi. simpl in Hi. lia. }
    rewrite list_lookup_middle in Hi by reflexivity.
    injection Hi as <-. rewrite Hc.
    split; intros [Hd Hbefore]; (split; [exact Hd|]).
    + intros j c' Hj Hc' Hpkg. rewrite lookup_app_l in Hc' by exact Hj.
      apply (Hbefore c'); [|exact Hpkg]. eapply list_elem_of_lookup_2, Hc'.
    + intros c' Hin Hpkg. apply list_elem_of_lookup_1 in Hin as [j Hj].
      apply (Hbefore j c'); [eapply lookup_lt_Some, Hj | | exact Hpkg].
      rewrite lookup_app_l by (eapply lookup_lt_Some, Hj). exact Hj.
Qed.

Variable tr0 : list event.

Lemma log_ok_skip (l : locals) (tr : list event) (cs : list call) pkg d :
  ((d >? max_depth)%Z || bool_decide (pkg ∈ visited l)) = true ->
  log_ok max_depth tr0 (visited l) tr cs ->
  log_ok max_depth tr0 (visited l) tr (cs ++ [Call pkg d false]).
Proof.
  intros Hguard (Hflags & Htr & Hvis).
  assert ((d <= max_depth)%Z -> pkg ∈ visited l) as Hin.
  { intros Hd. apply orb_true_iff in Hguard as [Hgt|Hv].
    - rewrite Z.gtb_ltb in Hgt. apply Z.ltb_lt in Hgt. lia.
    - now apply bool_decide_eq_true in Hv. }
  split_and!.
  - apply first_in_depth_expanded_snoc; [exact Hflags|]. simpl.
    split; [discriminate|]. intros [Hd Hbefore].
    apply Hin, Hvis in Hd as (c' & Hc' & Hpkg & Hd').
    specialize (Hbefore c' Hc' Hpkg). lia.
  - rewrite List.filter_app, List.map_app. simpl. now rewrite app_nil_r.
  - intros p. rewrite Hvis. split.
    + intros (c & Hc & Hp & Hd). exists c. split; [sets | auto].
    + intros (c & Hc & Hp & Hd). apply elem_of_app in Hc as [Hc|Hc].
      * exists c. auto.
      * apply list_elem_of_singleton in Hc as ->. simpl in *. subst p.
        apply Hvis, Hin, Hd.
Qed.

Lemma log_ok_expand (l : locals) (tr : list event) (cs : list call) pkg d :
  ((d >? max_depth)%Z || bool_decide (pkg ∈ visited l)) = false ->
  log_ok max_depth tr0 (visited l) tr cs ->
  log_ok max_depth tr0 ({[pkg]} ∪ visited l)
         (tr ++ lookup_events pip_show pkg) (cs ++ [Call pkg d true]).
Proof.
  intros Hguard (Hflags & Htr & Hvis).
  apply orb_false_iff in Hguard as [Hd Hv].
  rewrite Z.gtb_ltb in Hd. apply Z.ltb_ge in Hd.
  apply bool_decide_eq_false in Hv.
  split_and!.
  - apply first_in_depth_expanded_snoc; [exact Hflags|]. simpl.
    split; [|reflexivity]. intros _. split; [exact Hd|].
    intros c' Hc' Hpkg.
    destruct (Z.ltb_spec max_depth (call_depth c')) as [Hlt|Hle]; [exact Hlt|].
    exfalso. apply Hv, Hvis. exists c'. auto.
  - rewrite lookups_app, lookups_lookup_events, Htr, List.filter_app, List.map_app.
    simpl. now rewrite (assoc_L (++)).
  - intros p. rewrite elem_of_union, elem_of_singleton, Hvis. split.
    + intros [->|(c & Hc & Hp & Hd')].
      * exists (Call pkg d true). split; [sets | auto].
      * exists c. split; [sets | auto].
    + intros (c & Hc & Hp & Hd'). apply elem_of_app in Hc as [Hc|Hc].
      * right. exists c. auto.
      * apply list_elem_of_singleton in Hc as ->. left. now symmetry.
Qed.

Lemma for_deps_calls_log recur pkg d ds :
  (forall dep l tr cs o tr' cs',
      recur dep (d + 1)%Z l tr cs = Some (o, tr', cs') ->
      log_ok max_depth tr0 (visited l) tr cs ->
      exists V, log_ok max_depth tr0 V tr' cs'
                /\ forall l', o = Return l' -> visited l' = V) ->
  forall l tr cs o tr' cs',
    for_deps_calls recur pkg d ds l tr cs = Some (o, tr', cs') ->
    log_ok max_depth tr0 (visited l) tr cs ->
    exists V, log_ok max_depth tr0 V tr' cs'
              /\ forall l', o = Return l' -> visited l' = V.
Proof.
  intros Hrec. induction ds as [|dep rest IH];
    intros l tr cs o tr' cs' Hrun Hok; simpl in Hrun.
  - injection Hrun as <- <- <-. exists (visited l).
    split; [exact Hok|]. now intros l' [= <-].
  - destruct (recur dep (d + 1)%Z _ tr cs) as [[[[l1|e] tr1] cs1]|] eqn:Hcall;
      [|injection Hrun as <- <- <-|discriminate].
    + destruct (Hrec _ _ _ _ _ _ _ Hcall Hok) as (V & HokV & HV).
      rewrite <- (HV l1 eq_refl) in HokV. exact (IH _ _ _ _ _ _ Hrun HokV).
    + exact (Hrec _ _ _ _ _ _ _ Hcall Hok).
Qed.

Lemma add_dependencies_calls_log (fuel : nat) :
  forall pkg d l tr cs o tr' cs',
    add_dependencies_calls pip_show max_depth fuel pkg d l tr cs
    = Some (o, tr', cs') ->
    log_ok max_depth tr0 (visited l) tr cs ->
    exists V, log_ok max_depth tr0 V tr' cs'
              /\ forall l', o = Return l' -> visited l' = V.
Proof.
  induction fuel as [|fuel IH]; intros pkg d l tr cs o tr' cs' Hrun Hok;
    simpl in Hrun; [discriminate|].
  destruct ((d >? max_depth)%Z || bool_decide (pkg ∈ visited l)) eqn:Hguard.
  - injection Hrun as <- <- <-. exists (visited l).
    split; [now apply log_ok_skip | now intros l' [= <-]].
  - pose proof (log_ok_expand l tr cs pkg d Hguard Hok) as Hok1.
    rewrite get_dependencies_eq in Hrun.
    destruct (lookup_result pip_show pkg) as [ds|e].
    + exact (for_deps_calls_log _ pkg d ds (fun dep => IH dep (d + 1)%Z)
               _ _ _ _ _ _ Hrun Hok1).
    + injection Hrun as <- <- <-. exists ({[pkg]} ∪ visited l).
      split; [exact Hok1 | discriminate].
Qed.

(** *** One call for the root and one for every edge *)

Lemma for_deps_calls_edges recur pkg d ds :
  (forall dep l tr cs l' tr' cs',
      recur dep (d + 1)%Z l tr cs = Some (Return l', tr', cs') ->
      exists E C c0,
        graph l' = graph l ++ E /\ cs' = cs ++ c0 :: C /\ call_pkg c0 = dep
        /\ Forall2 (fun e c => exists p, e = relation p (call_pkg c)) E C) ->
  forall l tr cs l' tr' cs',
    for_deps_calls recur pkg d ds l tr cs = Some (Return l', tr', cs') ->
    exists E C,
      graph l' = graph l ++ E /\ cs' = cs ++ C
      /\ Forall2 (fun e c => exists p, e = relation p (call_pkg c)) E C.
Proof.
  intros Hrec. induction ds as [|dep rest IH];
    intros l tr cs l' tr' cs' Hrun; simpl in Hrun.
  - injection Hrun as <- <- <-. exists [], [].
    now rewrite !app_nil_r.
  - destruct (recur dep (d + 1)%Z _ tr cs) as [[[[l1|e] tr1] cs1]|] eqn:Hcall;
      [|discriminate..].
    destruct (Hrec _ _ _ _ _ _ _ Hcall) as (E1 & C1 & c0 & Hg1 & -> & Hc0 & H1).
    destruct (IH _ _ _ _ _ _ Hrun) as (E2 & C2 & Hg2 & -> & H2).
    simpl in Hg1. exists (relation pkg dep :: E1 ++ E2), (c0 :: C1 ++ C2).
    split_and!.
    + rewrite Hg2, Hg1. now rewrite <- !(assoc_L (++)).
    + now rewrite <- (assoc_L (++)).
    + constructor; [exists pkg; now rewrite Hc0 | now apply Forall2_app].
Qed.

Lemma add_dependencies_calls_edges (fuel : nat) :
  forall pkg d l tr cs l' tr' cs',
    add_dependencies_calls pip_show max_depth fuel pkg d l tr cs
    = Some (Return l', tr', cs') ->
    exists E C c0,
      graph l' = graph l ++ E /\ cs' = cs ++ c0 :: C /\ call_pkg c0 = pkg
      /\ Forall2 (fun e c => exists p, e = relation p (call_pkg c)) E C.
Proof.
  induction fuel as [|fuel IH]; intros pkg d l tr cs l' tr' cs' Hrun;
    simpl in Hrun; [discriminate|].
  destruct ((d >? max_depth)%Z || bool_decide (pkg ∈ visited l)).
  - injection Hrun as <- <- <-. exists [], [], (Call pkg d false).
    rewrite app_nil_r. split_and!; [reflexivity.. | constructor].
  - destruct (get_dependencies pip_show pkg tr) as [[ds|e] tr1];
      [|discriminate].
    destruct (for_deps_calls_edges _ pkg d ds (fun dep => IH dep (d + 1)%Z)
                _ _ _ _ _ _ Hrun) as (E & C & Hg & -> & HEC).
    exists E, C, (Call pkg d true).
    split_and!; [exact Hg | now rewrite <- (assoc_L (++)) | reflexivity | exact HEC].
Qed.

End Calls.

(** ** The example package managers answer every lookup *)

Ltac pip_cases pip :=
  let p := fresh "p" in
  intros p; unfold deps_of, lookup_result, get_dependencies, pip, pip_of;
  repeat destruct (String.eqb p _); reflexivity.


Lemma pip_xyz_relation : dependency_relation pip_xyz (deps_of pip_xyz).
Proof. pip_cases pip_xyz. Qed.

Lemma pip_shared_relation : dependency_relation pip_shared (deps_of pip_shared).
Proof. pip_cases pip_shared. Qed.

Lemma depth_one_root_edges_witness :
  exists g,
    build_dependency_graph pip_xyz 1 "X" []
    = Some (Return g, [] ++ lookup_events pip_xyz "X")
    /\ g = List.map (relation "X") (deps_of pip_xyz "X")
    /\ lookups (lookup_events pip_xyz "X") = ["X"]
    /\ forall e, e ∈ g ->
                 exists d, d ∈ deps_of pip_xyz "X" /\ e = relation "X" d.
Proof.
  exact (depth_one_root_edges pip_xyz (deps_of pip_xyz) "X" [] pip_xyz_relation).
Defined.


(** ** Each package is expanded once *)

(** C3, as it holds.  Over any dependency relation and for any
    [max_depth], no package is looked up twice; the graph holds one edge
    for every entry of the lookup result of every package looked up, so a
    package that two expanded parents list gets an edge under each.  The
    calls of [add_dependencies] are one for the root and then one for
    every edge, in the order of the graph, each for the target of its
    edge: they are the occurrences of the packages.  The packages looked
    up are those of the calls let through, and the call let through for a
    package is the first call for it within the depth limit (an earlier
    call beyond the limit returns without marking the package
    visited). *)
Theorem each_package_expanded_once (pip_show : string -> process)
    (deps : string -> list string) (max_depth : Z) (root : string)
    (tr : list event) :
  dependency_relation pip_show deps ->
  exists (g : list string) (trn : list event) (cs : list call),
    build_dependency_graph pip_show max_depth root tr
    = Some (Return g, tr ++ trn)
    /\ build_dependency_graph_calls pip_show max_depth root tr
       = Some (Return g, tr ++ trn, cs)
    /\ NoDup (lookups trn)
    /\ g ≡ₚ edges_of deps (lookups trn)
    /\ (exists c0 rest,
          cs = c0 :: rest /\ call_pkg c0 = root
          /\ Forall2 (fun e c => exists p, e = relation p (call_pkg c)) g rest)
    /\ lookups trn = List.map call_pkg (List.filter call_expanded cs)
    /\ first_in_depth_expanded max_depth cs.
Proof.
  intros Hdeps.
  destruct (build_dependency_graph_traversed pip_show max_depth deps Hdeps root tr)
    as (g & trn & Hrun & Hnd & Hperm & _).
  pose proof (build_dependency_graph_calls_erase pip_show max_depth root tr) as He.
  rewrite Hrun in He.
  destruct (build_dependency_graph_calls pip_show max_depth root tr)
    as [[[o tr'] cs]|] eqn:Hcalls; [|discriminate].
  simpl in He. injection He as Ho Htr'. subst o tr'.
  exists g, trn, cs.
  unfold build_dependency_graph_calls in Hcalls.
  destruct (add_dependencies_calls _ _ _ _ _ _ _ _)
    as [[[[l1|e] tr1] cs1]|] eqn:Hrec in Hcalls; [|discriminate..].
  injection Hcalls as <- -> ->.
  destruct (add_dependencies_calls_log pip_show max_depth tr _ _ _ _ _ _ _ _ _
              Hrec) as (V & (Hflags & Htr & _) & _).
  { split_and!;
      [intros i c Hi; discriminate | simpl; now rewrite app_nil_r
       | intros p; split; [sets | intros (c & Hc & _); sets]]. }
  destruct (add_dependencies_calls_edges pip_show max_depth _ _ _ _ _ _ _ _ _
              Hrec) as (E & C & c0 & Hg & -> & Hc0 & HEC).
  simpl in Hg. subst E.
  split_and!; [exact Hrun | reflexivity | exact Hnd | exact Hperm | | | exact Hflags].
  - exists c0, C. auto.
  - rewrite lookups_app in Htr. now apply app_inv_head in Htr.
Qed.

Lemma each_package_expanded_once_witness :
  exists (g : list string) (trn : list event) (cs : list call),
    build_dependency_graph pip_shared 3 "X" [] = Some (Return g, [] ++ trn)
    /\ build_dependency_graph_calls pip_shared 3 "X" []
       = Some (Return g, [] ++ trn, cs)
    /\ NoDup (lookups trn)
    /\ g ≡ₚ edges_of (deps_of pip_shared) (lookups trn)
    /\ (exists c0 rest,
          cs = c0 :: rest /\ call_pkg c0 = "X"
          /\ Forall2 (fun e c => exists p, e = relation p (call_pkg c)) g rest)
    /\ lookups trn = List.map call_pkg (List.filter call_expanded cs)
    /\ first_in_depth_expanded 3 cs.
Proof.
  exact (each_package_expanded_once pip_shared (deps_of pip_shared) 3 "X" []
           pip_shared_relation).
Defined.

(** C3, as the claim has it, fails.  With X -> [Y, W], Y -> [W],
    W -> [V] and [max_depth = 2], [W] is first reached under [Y] at
    depth 3, where the depth limit stops the call; it is expanded at its
    second occurrence, under [X] at depth 2. *)
Lemma first_reached_not_expanded :
  build_dependency_graph_calls pip_shared 2 "X" []
  = Some (Return ["X --> Y"; "Y --> W"; "X --> W"; "W --> V"],
          [RunPip "X"; RunPip "Y"; RunPip "W"],
          [Call "X" 1 true; Call "Y" 2 true; Call "W" 3 false;
           Call "W" 2 true; Call "V" 3 false])
  /\ ~ first_reached_expanded
       [Call "X" 1 true; Call "Y" 2 true; Call "W" 3 false;
        Call "W" 2 true; Call "V" 3 false].
Proof.
  split; [vm_compute; reflexivity|]. intros H.
  specialize (H 3%nat 2%nat (Call "W" 2 true) (Call "W" 3 false)
                eq_refl eq_refl eq_refl eq_refl).
  lia.
Qed.

(** * Further properties *)

(** ** What the parser keeps of a line *)

Section Pieces.
Import PyStr PyStrFacts.

Lemma chars_all_push (f : ascii -> bool) (c : ascii) (pieces : list string) :
  f c = true ->
  Forall (fun p => chars_all f p = true) pieces ->
  Forall (fun p => chars_all f p = true) (push c pieces).
Proof.
  intros Hc Hall. destruct Hall as [|p ps Hp Hps]; simpl.
  - constructor; [|constructor]. unfold chars_all. simpl. now rewrite Hc.
  - constructor; [|exact Hps]. unfold chars_all in *. simpl. now rewrite Hc.
Qed.

(** No line of [splitlines] holds a line boundary. *)
Lemma splitlines_no_linebreak (s : string) :
  Forall (fun line => chars_all no_linebreak line = true) (splitlines s).
Proof.
  enough (Forall (fun line => chars_all no_linebreak line = true) (splitlines s)
          /\ forall c, Forall (fun line => chars_all no_linebreak line = true)
                              (splitlines (String c s))) by tauto.
  induction s as [|x s [IH1 IH2]].
  - split; [constructor|]. intros c. cbn [splitlines].
    destruct (Ascii.eqb c CR); [repeat constructor|].
    destruct (is_linebreak c) eqn:Hc; [repeat constructor|].
    apply chars_all_push; [|constructor]. unfold no_linebreak. now rewrite Hc.
  - split; [apply IH2|]. intros c.
    change (splitlines (String c (String x s)))
      with (if Ascii.eqb c CR
            then if Ascii.eqb x LF then EmptyString :: splitlines s
                 else EmptyString :: splitlines (String x s)
            else if is_linebreak c then EmptyString :: splitlines (String x s)
                 else push c (splitlines (String x s))).
    destruct (Ascii.eqb c CR).
    + destruct (Ascii.eqb x LF); constructor; auto.
    + destruct (is_linebreak c) eqn:Hc; [constructor; auto|].
      apply chars_all_push; [|apply IH2]. unfold no_linebreak. now rewrite Hc.
Qed.

(** The pieces of [split] are made of characters of the text. *)
Lemma split_from_chars (f : ascii -> bool) (sep : string) (skip : nat)
    (s : string) :
  chars_all f s = true ->
  Forall (fun p => chars_all f p = true) (split_from sep skip s).
Proof.
  revert skip. unfold chars_all at 1.
  induction s as [|x s IH]; intros skip Hs; cbn [split_from].
  - repeat constructor.
  - simpl in Hs. apply andb_true_iff in Hs as [Hx Hs].
    destruct skip as [|k]; [|now apply IH].
    destruct (String.prefix sep (String x s)).
    + constructor; [reflexivity | now apply IH].
    + apply chars_all_push; [exact Hx | now apply IH].
Qed.

Lemma lstrip_chars (f : ascii -> bool) (s : string) :
  chars_all f s = true -> chars_all f (lstrip s) = true.
Proof.
  unfold chars_all. induction s as [|x s IH]; simpl; [reflexivity|].
  intros [Hx Hs]%andb_true_iff. destruct (isspace x); [now apply IH|].
  simpl. now rewrite Hx, Hs.
Qed.

Lemma rstrip_chars (f : ascii -> bool) (s : string) :
  chars_all f s = true -> chars_all f (rstrip s) = true.
Proof.
  unfold chars_all. induction s as [|x s IH]; simpl; [reflexivity|].
  intros [Hx Hs]%andb_true_iff. specialize (IH Hs).
  destruct (rstrip s) as [|y r].
  - destruct (isspace x); simpl; [reflexivity | now rewrite Hx].
  - simpl in *. now rewrite Hx, IH.
Qed.

Lemma strip_chars (f : ascii -> bool) (s : string) :
  chars_all f s = true -> chars_all f (strip s) = true.
Proof. intros Hs. now apply rstrip_chars, lstrip_chars. Qed.

(** *** Trimming twice is trimming once *)

Lemma rstrip_cons (x : ascii) (s : string) :
  rstrip (String x s)
  = match rstrip s with
    | EmptyString => if isspace x then EmptyString else String x EmptyString
    | r => String x r
    end.
Proof. reflexivity. Qed.

Lemma rstrip_rstrip (s : string) : rstrip (rstrip s) = rstrip s.
Proof.
  induction s as [|x s IH]; [reflexivity|]. rewrite rstrip_cons.
  destruct (rstrip s) as [|y r] eqn:Hr.
  - destruct (isspace x) eqn:Hx; [reflexivity|]. simpl. now rewrite Hx.
  - now rewrite rstrip_cons, IH.
Qed.

Lemma lstrip_head (s : string) :
  match lstrip s with
  | EmptyString => True
  | String c _ => isspace c = false
  end.
Proof.
  induction s as [|x s IH]; simpl; [exact I|].
  destruct (isspace x) eqn:Hx; [exact IH | exact Hx].
Qed.

Lemma rstrip_head (c : ascii) (s : string) :
  isspace c = false -> exists r, rstrip (String c s) = String c r.
Proof.
  intros Hc. simpl. destruct (rstrip s) as [|y r]; [|eauto].
  rewrite Hc. eauto.
Qed.

Lemma strip_strip (s : string) : strip (strip s) = strip s.
Proof.
  unfold strip. pose proof (lstrip_head s) as Hhead.
  destruct (lstrip s) as [|c t]; [reflexivity|].
  destruct (rstrip_head c t Hhead) as [r Hr]. rewrite Hr.
  cbn [lstrip]. rewrite Hhead, <- Hr. apply rstrip_rstrip.
Qed.

End Pieces.

Section Identifiers.
Import PyStr PyStrFacts.

Lemma scan_lines_identifiers (lines : list string) (ds : list string) :
  Forall (fun line => chars_all no_linebreak line = true) lines ->
  scan_lines lines = Return ds ->
  Forall (fun d => strip d = d /\ chars_all no_linebreak d = true) ds.
Proof.
  induction 1 as [|line rest Hline _ IH]; cbn [scan_lines].
  - intros [= <-]. constructor.
  - destruct (startswith "Requires" line); [|exact IH].
    destruct (split ":" line !! 1%nat) as [field|] eqn:Hfield; [|discriminate].
    assert (chars_all no_linebreak field = true) as Hf.
    { pose proof (split_from_chars no_linebreak ":" 0 line Hline) as Hall.
      rewrite Forall_forall in Hall. apply Hall.
      eapply list_elem_of_lookup_2, Hfield. }
    destruct (truthy (strip field)); intros [= <-]; [|constructor].
    pose proof (split_from_chars no_linebreak ", " 0 (strip field)
                  (strip_chars _ _ Hf)) as Hall.
    fold (split ", " (strip field)) in Hall. clear IH.
    induction Hall as [|p ps Hp _ IHps]; [constructor|].
    cbn [List.filter]. destruct (truthy p); [|exact IHps].
    cbn [List.map]. constructor; [|exact IHps].
    split; [apply strip_strip | now apply strip_chars].
Qed.

End Identifiers.

Lemma lookup_result_identifiers (pip_show : string -> process) (pkg : string)
    (ds : list string) :
  lookup_result pip_show pkg = Return ds ->
  Forall (fun d => PyStr.strip d = d /\ chars_all no_linebreak d = true) ds.
Proof.
  unfold lookup_result, get_dependencies.
  destruct (pip_show pkg) as [rc out|]; [|discriminate].
  destruct (rc =? 0)%Z; [|intros [= <-]; constructor].
  cbn [fst]. apply scan_lines_identifiers, splitlines_no_linebreak.
Qed.

(** X1.  Every identifier [get_dependencies] returns is trimmed (trimming it
    again changes nothing) and holds no line boundary, whatever the
    output of the query. *)
Theorem identifiers_trimmed (pip_show : string -> process) (pkg : string)
    (tr tr' : list event) (ds : list string) :
  get_dependencies pip_show pkg tr = (Return ds, tr') ->
  Forall (fun d => PyStr.strip d = d /\ chars_all no_linebreak d = true) ds.
Proof.
  intros Hget. apply (lookup_result_identifiers pip_show pkg).
  rewrite get_dependencies_eq in Hget. now injection Hget as ->.
Qed.

Lemma identifiers_trimmed_witness :
  Forall (fun d => PyStr.strip d = d /\ chars_all no_linebreak d = true)
         ["Y"; "Z"].
Proof.
  apply (identifiers_trimmed pip_xyz "X" [] [RunPip "X"] ["Y"; "Z"]).
  reflexivity.
Defined.

(** X2.  A line that starts with "Requires" and has no colon makes
    [get_dependencies] raise [IndexError], after the query and without
    a diagnostic. *)
Theorem requires_without_colon_raises (pip_show : string -> process)
    (pkg stdout : string) (before after : list string) (line : string)
    (tr : list event) :
  pip_show pkg = Exited 0 stdout ->
  PyStr.splitlines stdout = before ++ line :: after ->
  Forall (fun l => PyStr.startswith "Requires" l = false) before ->
  PyStr.startswith "Requires" line = true ->
  chars_all no_colon line = true ->
  get_dependencies pip_show pkg tr = (Raise IndexError, tr ++ [RunPip pkg]).
Proof.
  intros Hrun Hlines Hbefore Hline Hcolon.
  unfold get_dependencies, parse_requires. rewrite Hrun, Hlines.
  rewrite (scan_lines_skip _ _ Hbefore). cbn [Z.eqb scan_lines].
  now rewrite Hline, (PyStrFacts.split_solid ":" _ _ Hcolon).
Qed.

Lemma requires_without_colon_raises_witness :
  get_dependencies pip_no_colon "x" [] = (Raise IndexError, [RunPip "x"]).
Proof.
  apply (requires_without_colon_raises
           pip_no_colon "x" ("Name: x" +:+ nl +:+ "Requires" +:+ nl)
           ["Name: x"] [] "Requires" []);
    [reflexivity | reflexivity | repeat constructor | reflexivity | reflexivity].
Defined.

(** X3.  Only the first line that starts with "Requires" is read: the result
    is what that line alone gives, whatever follows it. *)
Theorem first_requires_line_decides (stdout : string)
    (before after : list string) (line : string) :
  PyStr.splitlines stdout = before ++ line :: after ->
  Forall (fun l => PyStr.startswith "Requires" l = false) before ->
  PyStr.startswith "Requires" line = true ->
  parse_requires stdout = scan_lines [line].
Proof.
  intros Hlines Hbefore Hline. unfold parse_requires. rewrite Hlines.
  rewrite (scan_lines_skip _ _ Hbefore). cbn [scan_lines]. now rewrite Hline.
Qed.

Lemma first_requires_line_decides_witness :
  parse_requires ("Requires-Dist: a" +:+ nl +:+ "Requires: b, c" +:+ nl)
  = scan_lines ["Requires-Dist: a"].
Proof.
  apply (first_requires_line_decides
           ("Requires-Dist: a" +:+ nl +:+ "Requires: b, c" +:+ nl)
           [] ["Requires: b, c"] "Requires-Dist: a");
    [reflexivity | constructor | reflexivity].
Defined.

(** X4.  Of the line read, only the text between the first and the second
    colon counts: what follows a second colon is dropped. *)
Theorem text_after_second_colon_dropped (label value rest : string)
    (after : list string) :
  PyStr.startswith "Requires" label = true ->
  chars_all no_colon label = true ->
  chars_all no_colon value = true ->
  scan_lines ((label +:+ ":" +:+ value +:+ ":" +:+ rest) :: after)
  = scan_lines [label +:+ ":" +:+ value].
Proof.
  intros Hlabel Hl Hv.
  rewrite (scan_lines_field label value [] Hlabel Hl Hv).
  cbn [scan_lines]. unfold PyStr.startswith in *.
  rewrite (PyStrFacts.prefix_app _ _ _ Hlabel). unfold PyStr.split.
  rewrite (PyStrFacts.split_from_solid ":" _ _ _ Hl).
  rewrite (PyStrFacts.split_from_sep ":" EmptyString).
  rewrite (PyStrFacts.split_from_solid ":" _ _ _ Hv).
  rewrite (PyStrFacts.split_from_sep ":" EmptyString).
  pose proof (PyStrFacts.split_from_nonempty ":" 0 rest) as Hne.
  destruct (PyStr.split_from ":" 0 rest) as [|p ps]; [contradiction|].
  cbn [lookup list_lookup]. now rewrite !PyStrFacts.string_app_empty_r.
Qed.

Lemma text_after_second_colon_dropped_witness :
  scan_lines ["Requires: a, b: c, d"] = scan_lines ["Requires: a, b"].
Proof.
  apply (text_after_second_colon_dropped "Requires" " a, b" " c, d" []);
    reflexivity.
Defined.

(** ** White space between two separators *)

Section PiecesOfALine.
Import PyStr PyStrFacts.

Lemma gap_ok_parts (i : item) :
  gap_ok i = true ->
  blank (pad_left i) = true /\ item_name i = EmptyString
  /\ blank (pad_right i) = true /\ truthy (item_text i) = true.
Proof.
  unfold gap_ok. rewrite !andb_true_iff, negb_true_iff.
  intros [[[Hl Hn] Hr] Ht]. split_and!; try assumption.
  now destruct (item_name i).
Qed.

Lemma piece_text_chars (f : ascii -> bool) (i : item) :
  (forall c, isspace c = true -> f c = true) ->
  (forall c, ident_char c = true -> f c = true) ->
  piece_ok i = true -> chars_all f (item_text i) = true.
Proof.
  intros Hs Hi [Hok|Hgap]%orb_true_iff; [now apply item_text_chars|].
  apply gap_ok_parts in Hgap as (Hl & Hn & Hr & _). unfold item_text.
  rewrite Hn, !chars_all_app, !andb_true_iff. split_and!.
  - exact (chars_all_impl _ _ _ Hs Hl).
  - reflexivity.
  - exact (chars_all_impl _ _ _ Hs Hr).
Qed.

Lemma piece_text_truthy (i : item) :
  piece_ok i = true -> truthy (item_text i) = true.
Proof.
  intros [Hok|Hgap]%orb_true_iff; [now apply item_text_truthy|].
  now apply gap_ok_parts in Hgap.
Qed.

Lemma strip_piece_text (i : item) :
  piece_ok i = true -> strip (item_text i) = item_name i.
Proof.
  intros [Hok|Hgap]%orb_true_iff; [now apply strip_item_text|].
  apply gap_ok_parts in Hgap as (Hl & Hn & Hr & _). unfold strip, item_text.
  rewrite Hn, (lstrip_blank _ _ Hl).
  change (EmptyString +:+ pad_right i) with (pad_right i).
  rewrite <- (string_app_empty_r (pad_right i)).
  now rewrite (lstrip_blank _ _ Hr).
Qed.

Lemma join_last_truthy (front : list string) (y : string) :
  truthy y = true -> truthy (join ", " (front ++ [y])) = true.
Proof.
  intros Hy. induction front as [|x front IH]; [exact Hy|].
  cbn [app]. rewrite join_cons by now destruct front.
  now apply truthy_app_r, truthy_app_r.
Qed.

(** Trimming on the right only removes the padding of the last item,
    whatever stands before it. *)
Lemma rstrip_join_last (front : list item) (last : item) :
  item_ok last = true ->
  rstrip (join ", " (List.map item_text (front ++ [last])))
  = join ", " (List.map item_text
                 (front ++ [Item (pad_left last) (item_name last) EmptyString])).
Proof.
  intros (Hl & Ht & Hn & Hr)%item_ok_parts.
  assert (truthy (item_text (Item (pad_left last) (item_name last) EmptyString))
          = true) as Hlast.
  { unfold item_text. simpl. now apply truthy_app_r, truthy_app_l. }
  induction front as [|i front IH].
  - simpl. unfold item_text. simpl.
    rewrite <- string_app_assoc, (rstrip_app_blank _ _ Hr).
    rewrite string_app_empty_r, rstrip_app_truthy;
      rewrite (rstrip_solid _ (chars_all_impl _ _ _ ident_char_no_space Hn));
      [reflexivity | exact Ht].
  - cbn [app List.map].
    rewrite !join_cons by (rewrite List.map_app; now destruct (List.map item_text front)).
    rewrite <- string_app_assoc, rstrip_app_truthy; rewrite IH.
    + now rewrite string_app_assoc.
    + rewrite List.map_app. now apply join_last_truthy.
Qed.

Lemma comprehension_pieces (items : list item) :
  Forall (fun i => piece_ok i = true) items ->
  List.map strip (List.filter truthy (List.map item_text items))
  = List.map item_name items.
Proof.
  induction 1 as [|i items Hi _ IH]; [reflexivity|].
  cbn [List.map List.filter]. rewrite (piece_text_truthy _ Hi).
  cbn [List.map]. now rewrite (strip_piece_text _ Hi), IH.
Qed.

End PiecesOfALine.

(** X5.  The comprehension of line 52 drops the pieces that are empty before
    trimming, and trims afterwards: in a list that begins and ends with
    an identifier, every piece of white space only, standing between two
    ", " separators, comes out as the empty identifier, in its place. *)
Theorem white_space_piece_gives_empty_identifier (stdout : string)
    (before after : list string) (label : string)
    (first : item) (middle : list item) (last : item) :
  PyStr.splitlines stdout
  = before ++ (label +:+ ":" +:+ PyStr.join ", "
                 (List.map item_text (first :: middle ++ [last]))) :: after ->
  Forall (fun line => PyStr.startswith "Requires" line = false) before ->
  PyStr.startswith "Requires" label = true ->
  chars_all no_colon label = true ->
  item_ok first = true ->
  Forall (fun i => piece_ok i = true) middle ->
  item_ok last = true ->
  parse_requires stdout
  = Return (List.map item_name (first :: middle ++ [last])).
Proof.
  intros Hlines Hbefore Hlabel Hcolon Hfirst Hmiddle Hlast.
  pose proof Hfirst as (Hl & Ht & Hn & Hr)%item_ok_parts.
  set (first' := Item EmptyString (item_name first) (pad_right first)).
  set (last' := Item (pad_left last) (item_name last) EmptyString).
  assert (item_ok first' = true) as Hfirst'.
  { unfold item_ok, identifier. simpl. now rewrite Ht, Hn, Hr. }
  assert (item_ok last' = true) as Hlast'.
  { pose proof Hlast as (Hl2 & Ht2 & Hn2 & _)%item_ok_parts.
    unfold item_ok, identifier. simpl. now rewrite Hl2, Ht2, Hn2. }
  assert (forall a b, item_ok a = true -> item_ok b = true ->
            Forall (fun i => piece_ok i = true) (a :: middle ++ [b])) as Hall.
  { intros a b Ha Hb. constructor; [unfold piece_ok; now rewrite Ha|].
    apply Forall_app. split; [exact Hmiddle|].
    constructor; [unfold piece_ok; now rewrite Hb | constructor]. }
  unfold parse_requires. rewrite Hlines, (scan_lines_skip _ _ Hbefore).
  rewrite (scan_lines_field _ _ _ Hlabel Hcolon).
  2:{ apply chars_all_join; [reflexivity|]. apply Forall_forall. intros p Hp.
      apply list_elem_of_In, in_map_iff in Hp as (j & <- & Hj).
      apply piece_text_chars; [exact isspace_no_colon | exact ident_char_no_colon|].
      specialize (Hall first last Hfirst Hlast). rewrite Forall_forall in Hall.
      now apply Hall, list_elem_of_In. }
  assert (PyStr.strip (PyStr.join ", " (List.map item_text (first :: middle ++ [last])))
          = PyStr.join ", " (List.map item_text (first' :: middle ++ [last'])))
    as ->.
  { unfold PyStr.strip. rewrite (lstrip_join _ _ Hfirst). fold first'.
    change (first' :: middle ++ [last]) with ((first' :: middle) ++ [last]).
    now rewrite (rstrip_join_last _ _ Hlast). }
  specialize (Hall first' last' Hfirst' Hlast').
  assert (PyStr.truthy (PyStr.join ", " (List.map item_text (first' :: middle ++ [last'])))
          = true) as ->.
  { change (first' :: middle ++ [last']) with ((first' :: middle) ++ [last']).
    rewrite List.map_app. apply join_last_truthy.
    now apply item_text_truthy. }
  rewrite PyStrFacts.split_join.
  - pose proof (comprehension_pieces _ Hall) as Hnames.
    rewrite Hnames. cbn [List.map]. now rewrite !List.map_app.
  - discriminate.
  - apply Forall_forall. intros p Hp.
    apply list_elem_of_In, in_map_iff in Hp as (j & <- & Hj).
    apply piece_text_chars; [exact isspace_no_comma | exact ident_char_no_comma|].
    rewrite Forall_forall in Hall. now apply Hall, list_elem_of_In.
Qed.

Lemma white_space_piece_gives_empty_identifier_witness :
  parse_requires ("Name: x" +:+ nl +:+ "Requires: a,  , b" +:+ nl)
  = Return ["a"; ""; "b"].
Proof.
  apply (white_space_piece_gives_empty_identifier
           ("Name: x" +:+ nl +:+ "Requires: a,  , b" +:+ nl)
           ["Name: x"] [] "Requires"
           (Item " " "a" "") [Item " " "" ""] (Item "" "b" ""));
    [reflexivity | repeat constructor | reflexivity | reflexivity
     | reflexivity | repeat constructor | reflexivity].
Defined.

(** ** The traversal, whatever the package manager answers *)

Lemma lookups_flat_map (pip_show : string -> process) (qs : list string) :
  lookups (flat_map (lookup_events pip_show) qs) = qs.
Proof.
  induction qs as [|q qs IH]; [reflexivity|].
  cbn [flat_map]. now rewrite lookups_app, lookups_lookup_events, IH.
Qed.

Lemma within_refl deps n p : within deps n p p = true.
Proof. destruct n; simpl; now rewrite String.eqb_refl. Qed.

Lemma within_step deps n p d q :
  d ∈ deps p -> within deps n d q = true -> within deps (S n) p q = true.
Proof.
  intros Hd Hq. cbn [within]. apply orb_true_iff. right.
  apply existsb_exists. exists d. split; [now apply list_elem_of_In | exact Hq].
Qed.

Lemma deps_of_return pip_show p ds :
  lookup_result pip_show p = Return ds -> deps_of pip_show p = ds.
Proof. unfold deps_of. now intros ->. Qed.

Section Walked.

Variable pip_show : string -> process.
Variable max_depth : Z.

Lemma walked_skip starts d l tr :
  ((d <= max_depth)%Z -> forall s, s ∈ starts -> s ∈ visited l) ->
  walked pip_show max_depth starts d l tr (Return l) tr.
Proof.
  intros Hs. exists []. cbn [flat_map]. rewrite app_nil_r.
  split_and!; [reflexivity | constructor | sets | sets | sets | constructor | exact Hs].
Qed.

Lemma for_deps_walked recur pkg d ds :
  (forall dep l tr o tr',
      recur dep (d + 1)%Z l tr = Some (o, tr') ->
      walked pip_show max_depth [dep] (d + 1) l tr o tr') ->
  forall l tr o tr',
    for_deps recur pkg d ds l tr = Some (o, tr') ->
    walked pip_show max_depth ds (d + 1) l tr o tr'.
Proof.
  intros Hrec. induction ds as [|dep rest IH]; intros l tr o tr' Hrun;
    simpl in Hrun.
  - injection Hrun as <- <-. apply walked_skip. sets.
  - destruct (recur dep (d + 1)%Z _ tr) as [[[l1|e] tr1]|] eqn:Hcall;
      [| |discriminate].
    + destruct (Hrec _ _ _ _ _ Hcall)
        as (qs1 & -> & Hnd1 & Hnew1 & Hin1 & Hv1 & Hret1 & Hs1).
      destruct (IH _ _ _ _ Hrun)
        as (qs2 & -> & Hnd2 & Hnew2 & Hin2 & Hout).
      simpl in Hnew1, Hv1. rewrite Hv1 in Hnew2.
      exists (qs1 ++ qs2). split_and!.
      * now rewrite flat_map_app, (assoc_L (++)).
      * apply NoDup_app. split_and!; [exact Hnd1| |exact Hnd2].
        intros q Hq1 Hq2. apply (Hnew2 q Hq2). sets.
      * intros q [Hq|Hq]%elem_of_app; [auto|]. specialize (Hnew2 q Hq). sets.
      * intros q [Hq|Hq]%elem_of_app.
        -- destruct (Hin1 q Hq) as (Hd & s & Hs & Hw). split; [exact Hd|].
           exists s. split; [sets | exact Hw].
        -- destruct (Hin2 q Hq) as (Hd & s & Hs & Hw). split; [exact Hd|].
           exists s. split; [sets | exact Hw].
      * destruct o as [l'|e].
        -- destruct Hout as (Hv2 & Hret2 & Hs2). rewrite Hv1 in Hv2.
           split_and!.
           ++ rewrite Hv2. sets.
           ++ now apply Forall_app.
           ++ intros Hd s [->|Hs]%elem_of_cons; [|now apply Hs2].
              rewrite Hv2, <- Hv1. apply elem_of_union. right.
              apply Hs1; [exact Hd | sets].
        -- destruct Hout as (qs0 & q & -> & Hret0 & Hq).
           exists (qs1 ++ qs0), q. split_and!;
             [now rewrite (assoc_L (++)) | now apply Forall_app | exact Hq].
    + injection Hrun as <- <-.
      destruct (Hrec _ _ _ _ _ Hcall) as (qs1 & -> & Hnd1 & Hnew1 & Hin1 & Hout).
      exists qs1. split_and!; [reflexivity | exact Hnd1 | exact Hnew1 | | exact Hout].
      intros q Hq. destruct (Hin1 q Hq) as (Hd & s & Hs & Hw).
      split; [exact Hd|]. exists s. split; [sets | exact Hw].
Qed.

Lemma add_dependencies_walked (fuel : nat) :
  forall pkg d l tr o tr',
    add_dependencies pip_show max_depth fuel pkg d l tr = Some (o, tr') ->
    walked pip_show max_depth [pkg] d l tr o tr'.
Proof.
  induction fuel as [|fuel IH]; intros pkg d l tr o tr' Hrun;
    simpl in Hrun; [discriminate|].
  destruct (d >? max_depth)%Z eqn:Hd; simpl in Hrun.
  { injection Hrun as <- <-. apply walked_skip.
    rewrite Z.gtb_ltb in Hd. apply Z.ltb_lt in Hd. lia. }
  rewrite Z.gtb_ltb in Hd. apply Z.ltb_ge in Hd.
  destruct (bool_decide (pkg ∈ visited l)) eqn:Hv.
  { injection Hrun as <- <-. apply bool_decide_eq_true in Hv.
    apply walked_skip. intros _ s ->%list_elem_of_singleton. exact Hv. }
  apply bool_decide_eq_false in Hv.
  rewrite get_dependencies_eq in Hrun.
  destruct (lookup_result pip_show pkg) as [ds|e] eqn:Hlookup.
  - apply (for_deps_walked _ pkg d ds (fun dep => IH dep (d + 1)%Z)) in Hrun
      as (qs & -> & Hnd & Hnew & Hin & Hout).
    simpl in Hnew. exists (pkg :: qs). split_and!.
    + cbn [flat_map]. now rewrite !(assoc_L (++)).
    + constructor; [|exact Hnd]. intros Hq. specialize (Hnew pkg Hq). sets.
    + intros q [->|Hq]%elem_of_cons; [exact Hv|]. specialize (Hnew q Hq). sets.
    + intros q [->|Hq]%elem_of_cons.
      * split; [exact Hd|]. exists pkg. split; [sets | apply within_refl].
      * destruct (Hin q Hq) as (Hd' & s & Hs & Hw). split; [exact Hd|].
        exists pkg. split; [sets|].
        replace (Z.to_nat (max_depth - d))
          with (S (Z.to_nat (max_depth - (d + 1)))) by lia.
        apply (within_step _ _ _ s); [|exact Hw].
        now rewrite (deps_of_return _ _ _ Hlookup).
    + destruct o as [l'|e].
      * destruct Hout as (Hv' & Hret & _). simpl in Hv'. split_and!.
        -- rewrite Hv'. sets.
        -- constructor; [|exact Hret]. unfold lookup_returns. now rewrite Hlookup.
        -- intros _ s ->%list_elem_of_singleton. rewrite Hv'. sets.
      * destruct Hout as (qs0 & q & -> & Hret0 & Hq).
        exists (pkg :: qs0), q. split_and!; [reflexivity| |exact Hq].
        constructor; [|exact Hret0]. unfold lookup_returns. now rewrite Hlookup.
  - injection Hrun as <- <-. exists [pkg]. split_and!.
    + cbn [flat_map]. now rewrite app_nil_r.
    + repeat constructor. sets.
    + intros q ->%list_elem_of_singleton. exact Hv.
    + intros q ->%list_elem_of_singleton. split; [exact Hd|].
      exists pkg. split; [sets | apply within_refl].
    + exists [], pkg. split_and!; [reflexivity | constructor | exact Hlookup].
Qed.

End Walked.

Lemma printed_app (tr1 tr2 : list event) :
  printed (tr1 ++ tr2) = printed tr1 ++ printed tr2.
Proof. apply omap_app. Qed.

Lemma printed_flat_map (pip_show : string -> process) (qs : list string) :
  printed (flat_map (lookup_events pip_show) qs)
  = List.map error_message (List.filter (exits_nonzero pip_show) qs).
Proof.
  induction qs as [|q qs IH]; [reflexivity|].
  cbn [flat_map List.filter]. rewrite printed_app, IH.
  unfold lookup_events, get_dependencies, exits_nonzero.
  destruct (pip_show q) as [rc out|]; [destruct (rc =? 0)%Z|]; reflexivity.
Qed.

Section BuildWalked.

Variable pip_show : string -> process.
Variable max_depth : Z.

(** The run of [build_dependency_graph] is the run of the first call. *)
Lemma build_dependency_graph_run (root : string) (tr : list event) :
  exists (o : outcome locals) (tr' : list event),
    add_dependencies pip_show max_depth (S (Z.to_nat max_depth)) root 1
                     (Locals [] ∅) tr = Some (o, tr')
    /\ build_dependency_graph pip_show max_depth root tr
       = Some (match o with
               | Return l => Return (graph l)
               | Raise e => Raise e
               end, tr').
Proof.
  unfold build_dependency_graph.
  destruct (add_dependencies_fuel pip_show max_depth (S (Z.to_nat max_depth))
              root 1 (Locals [] ∅) tr) as [[[l|e] tr'] Hrun].
  { replace (max_depth + 1 - 1)%Z with max_depth by lia. lia. }
  all: rewrite Hrun; eauto.
Qed.

(** A call that passes the guard looks its package up first. *)
Lemma add_dependencies_first fuel pkg d l tr o tr' :
  (d <= max_depth)%Z -> pkg ∉ visited l ->
  add_dependencies pip_show max_depth fuel pkg d l tr = Some (o, tr') ->
  exists qs, tr' = tr ++ flat_map (lookup_events pip_show) (pkg :: qs)
             /\ match o with
                | Return l' =>
                    visited l' = list_to_set (pkg :: qs) ∪ visited l
                    /\ ((d + 1 <= max_depth)%Z ->
                        forall s, s ∈ deps_of pip_show pkg -> s ∈ visited l')
                | Raise _ => True
                end.
Proof.
  intros Hd Hv Hrun. destruct fuel as [|fuel]; [discriminate|].
  destruct (lookup_result pip_show pkg) as [ds|e] eqn:Hlookup.
  - rewrite (add_dependencies_expand _ _ _ _ _ _ _ ds Hd Hv Hlookup) in Hrun.
    apply (for_deps_walked pip_show max_depth _ pkg d ds
             (fun dep => add_dependencies_walked pip_show max_depth fuel dep (d + 1)%Z))
      in Hrun as (qs & -> & _ & _ & _ & Hout).
    exists qs. split; [cbn [flat_map]; now rewrite !(assoc_L (++))|].
    destruct o as [l'|e]; [|exact I].
    destruct Hout as (Hv' & _ & Hs). simpl in Hv'. split.
    + rewrite Hv'. sets.
    + now rewrite (deps_of_return _ _ _ Hlookup).
  - rewrite (add_dependencies_raise _ _ _ _ _ _ _ e Hd Hv Hlookup) in Hrun.
    injection Hrun as <- <-. exists []. split; [|exact I].
    cbn [flat_map]. now rewrite app_nil_r.
Qed.

End BuildWalked.

(** X6.  The only effects of [build_dependency_graph] are those of its
    lookups: the trace grows by the events of the packages looked up, one
    lookup after the other; no package is looked up twice; and the
    diagnostics printed are those of the packages whose query exited with
    a non-zero status, in the order of the lookups.  With
    [max_depth >= 1] the first package looked up is the root. *)
Theorem traversal_effects (pip_show : string -> process) (max_depth : Z)
    (root : string) (tr : list event) :
  exists (o : outcome (list string)) (trn : list event),
    build_dependency_graph pip_show max_depth root tr = Some (o, tr ++ trn)
    /\ trn = flat_map (lookup_events pip_show) (lookups trn)
    /\ NoDup (lookups trn)
    /\ printed trn
       = List.map error_message
                  (List.filter (exits_nonzero pip_show) (lookups trn))
    /\ ((1 <= max_depth)%Z -> head (lookups trn) = Some root).
Proof.
  destruct (build_dependency_graph_run pip_show max_depth root tr)
    as (o & tr' & Hrun & ->).
  destruct (add_dependencies_walked _ _ _ _ _ _ _ _ _ Hrun)
    as (qs & -> & Hnd & _).
  eexists _, _. split; [reflexivity|].
  rewrite lookups_flat_map. split_and!; [reflexivity | exact Hnd | apply printed_flat_map|].
  intros Hmax.
  destruct (add_dependencies_first _ _ _ _ _ _ _ _ _ Hmax (not_elem_of_empty root) Hrun)
    as (qs' & Heq & _).
  apply app_inv_head in Heq. apply (f_equal lookups) in Heq.
  rewrite !lookups_flat_map in Heq. now rewrite Heq.
Qed.

Lemma traversal_effects_witness :
  exists (o : outcome (list string)) (trn : list event),
    build_dependency_graph pip_shared 3 "X" [] = Some (o, [] ++ trn)
    /\ trn = flat_map (lookup_events pip_shared) (lookups trn)
    /\ NoDup (lookups trn)
    /\ printed trn
       = List.map error_message
                  (List.filter (exits_nonzero pip_shared) (lookups trn))
    /\ ((1 <= 3)%Z -> head (lookups trn) = Some "X").
Proof. exact (traversal_effects pip_shared 3 "X" []). Defined.

(** X7.  [build_dependency_graph] stops at the first lookup that raises: it
    raises exactly when the last lookup it made raised, with that
    exception, and every lookup before it returned; when it returns, all
    its lookups returned. *)
Theorem first_raise_stops (pip_show : string -> process) (max_depth : Z)
    (root : string) (tr : list event) :
  exists (o : outcome (list string)) (trn : list event),
    build_dependency_graph pip_show max_depth root tr = Some (o, tr ++ trn)
    /\ match o with
       | Return _ =>
           Forall (fun q => lookup_returns pip_show q = true) (lookups trn)
       | Raise e =>
           exists qs0 q,
             lookups trn = qs0 ++ [q]
             /\ Forall (fun q => lookup_returns pip_show q = true) qs0
             /\ lookup_result pip_show q = Raise e
       end.
Proof.
  destruct (build_dependency_graph_run pip_show max_depth root tr)
    as (o & tr' & Hrun & ->).
  destruct (add_dependencies_walked _ _ _ _ _ _ _ _ _ Hrun)
    as (qs & -> & _ & _ & _ & Hout).
  eexists _, _. split; [reflexivity|]. rewrite lookups_flat_map.
  destruct o as [l'|e]; [now destruct Hout as (_ & Hret & _) | exact Hout].
Qed.

(** X8.  Every package looked up is reached from the root along at most
    [max_depth - 1] dependencies. *)
Theorem lookups_within_depth (pip_show : string -> process) (max_depth : Z)
    (root : string) (tr : list event) :
  exists (o : outcome (list string)) (trn : list event),
    build_dependency_graph pip_show max_depth root tr = Some (o, tr ++ trn)
    /\ forall q, q ∈ lookups trn ->
         within (deps_of pip_show) (Z.to_nat (max_depth - 1)) root q = true.
Proof.
  destruct (build_dependency_graph_run pip_show max_depth root tr)
    as (o & tr' & Hrun & ->).
  destruct (add_dependencies_walked _ _ _ _ _ _ _ _ _ Hrun)
    as (qs & -> & _ & _ & Hin & _).
  eexists _, _. split; [reflexivity|]. rewrite lookups_flat_map.
  intros q Hq. destruct (Hin q Hq) as (_ & s & ->%list_elem_of_singleton & Hw).
  exact Hw.
Qed.

Lemma lookups_within_depth_witness :
  exists (o : outcome (list string)) (trn : list event),
    build_dependency_graph pip_shared 2 "X" [] = Some (o, [] ++ trn)
    /\ forall q, q ∈ lookups trn ->
         within (deps_of pip_shared) (Z.to_nat (2 - 1)) "X" q = true.
Proof. exact (lookups_within_depth pip_shared 2 "X" []). Defined.

(** X9.  With [max_depth >= 1] the graph holds an edge from the root to each
    of its dependencies; with [max_depth >= 2] each of them is looked up
    as well. *)
Theorem root_dependencies_covered (pip_show : string -> process)
    (deps : string -> list string) (max_depth : Z) (root : string)
    (tr : list event) :
  dependency_relation pip_show deps ->
  (1 <= max_depth)%Z ->
  exists (g : list string) (trn : list event),
    build_dependency_graph pip_show max_depth root tr
    = Some (Return g, tr ++ trn)
    /\ (forall d, d ∈ deps root -> relation root d ∈ g)
    /\ ((2 <= max_depth)%Z -> forall d, d ∈ deps root -> d ∈ lookups trn).
Proof.
  intros Hdeps Hmax.
  destruct (build_dependency_graph_traversed pip_show max_depth deps Hdeps root tr)
    as (g & trn & Hbuild & _ & Hperm & _).
  destruct (build_dependency_graph_run pip_show max_depth root tr)
    as (o & tr' & Hrun & Hbuild').
  rewrite Hbuild in Hbuild'. injection Hbuild' as Ho <-.
  destruct (add_dependencies_first _ _ _ _ _ _ _ _ _ Hmax (not_elem_of_empty root) Hrun)
    as (qs & Heq & Hout).
  apply app_inv_head in Heq. apply (f_equal lookups) in Heq.
  rewrite lookups_flat_map in Heq.
  exists g, trn. split_and!; [exact Hbuild | |].
  - intros d Hd. rewrite Hperm. apply elem_of_edges_of.
    exists root, d. rewrite Heq. split_and!; [reflexivity | sets | exact Hd].
  - intros Hmax2 d Hd. destruct o as [l'|e]; [|discriminate].
    destruct Hout as (Hv & Hs). rewrite Heq.
    assert (d ∈ visited l') as Hin.
    { apply Hs; [lia|]. unfold deps_of. now rewrite Hdeps. }
    rewrite Hv in Hin. sets.
Qed.

Lemma root_dependencies_covered_witness :
  exists (g : list string) (trn : list event),
    build_dependency_graph pip_xyz 2 "X" [] = Some (Return g, [] ++ trn)
    /\ (forall d, d ∈ deps_of pip_xyz "X" -> relation "X" d ∈ g)
    /\ ((2 <= 2)%Z -> forall d, d ∈ deps_of pip_xyz "X" -> d ∈ lookups trn).
Proof.
  apply (root_dependencies_covered pip_xyz (deps_of pip_xyz) 2 "X" []);
    [exact pip_xyz_relation | lia].
Defined.

(** X10.  A package that lists itself gets the edge to itself once and is
    looked up once, whatever the depth limit from 1 on. *)
Theorem self_dependency (pip_show : string -> process) (max_depth : Z)
    (p : string) (tr : list event) :
  (1 <= max_depth)%Z ->
  lookup_result pip_show p = Return [p] ->
  build_dependency_graph pip_show max_depth p tr
  = Some (Return [relation p p], tr ++ [RunPip p]).
Proof.
  intros Hmax Hp. unfold build_dependency_graph.
  rewrite (add_dependencies_expand _ _ _ _ _ _ _ [p]);
    [|lia|sets|exact Hp].
  rewrite (lookup_events_cons _ _ _ _ Hp). cbn [for_deps graph visited].
  destruct (Z.to_nat max_depth) as [|k] eqn:Hk; [lia|].
  rewrite add_dependencies_skip by (right; sets). reflexivity.
Qed.

Lemma self_dependency_witness :
  build_dependency_graph (pip_of [("p", "p")]) 3 "p" []
  = Some (Return ["p --> p"], [RunPip "p"]).
Proof.
  apply (self_dependency (pip_of [("p", "p")]) 3 "p" []); [lia | reflexivity].
Defined.

(** X11.  A root whose query exits with a non-zero status gives the empty
    graph, one query and one diagnostic. *)
Theorem failing_root_empty_graph (pip_show : string -> process)
    (max_depth : Z) (root : string) (returncode : Z) (stdout : string)
    (tr : list event) :
  (1 <= max_depth)%Z ->
  pip_show root = Exited returncode stdout ->
  returncode <> 0%Z ->
  build_dependency_graph pip_show max_depth root tr
  = Some (Return [], tr ++ [RunPip root; PrintLine (error_message root)]).
Proof.
  intros Hmax Hrun Hrc. apply Z.eqb_neq in Hrc.
  assert (get_dependencies pip_show root []
          = (Return [], [RunPip root; PrintLine (error_message root)])) as Hget.
  { unfold get_dependencies. now rewrite Hrun, Hrc. }
  unfold build_dependency_graph.
  rewrite (add_dependencies_expand _ _ _ _ _ _ _ []);
    [|lia|sets|unfold lookup_result; now rewrite Hget].
  unfold lookup_events. now rewrite Hget.
Qed.

Lemma failing_root_empty_graph_witness :
  build_dependency_graph pip_xyz 2 "nowhere" []
  = Some (Return [],
          [RunPip "nowhere";
           PrintLine "Error: Could not fetch dependencies for nowhere"]).
Proof.
  apply (failing_root_empty_graph pip_xyz 2 "nowhere" 1 EmptyString []);
    [lia | reflexivity | lia].
Defined.

(** X12.  A larger depth limit does not always give more: a package first
    reached on a longer path, at the new limit, is expanded there, and
    its own dependencies are then beyond the limit.  So there are a
    package manager, a root and a depth limit for which an edge of the
    graph is missing from the graph of the next larger limit. *)
Theorem deeper_limit_can_lose_edges :
  exists (pip_show : string -> process) (max_depth : Z) (root : string)
         (g g' : list string) (trn trn' : list event) (e : string),
    build_dependency_graph pip_show max_depth root [] = Some (Return g, trn)
    /\ build_dependency_graph pip_show (max_depth + 1) root []
       = Some (Return g', trn')
    /\ e ∈ g /\ e ∉ g'.
Proof.
  exists pip_detour, 3%Z, "R",
    ["R --> A"; "A --> B"; "B --> Q"; "R --> Q"; "Q --> P"; "P --> Z"],
    ["R --> A"; "A --> B"; "B --> Q"; "Q --> P"; "R --> Q"],
    [RunPip "R"; RunPip "A"; RunPip "B"; RunPip "Q"; RunPip "P"],
    [RunPip "R"; RunPip "A"; RunPip "B"; RunPip "Q"], "P --> Z".
  split_and!; [reflexivity | reflexivity | |].
  - repeat first [apply list_elem_of_here | apply list_elem_of_further].
  - intros Hin.
    repeat (apply elem_of_cons in Hin as [Hin|Hin]; [discriminate|]).
    now apply elem_of_nil in Hin.
Qed.

(** X13.  The packages looked up are exactly those for which [add_dependencies]
    is called at a depth within the limit: no occurrence within the
    limit is left without its lookup, and nothing beyond it is looked
    up. *)
Theorem lookups_are_calls_within_depth (pip_show : string -> process)
    (deps : string -> list string) (max_depth : Z) (root : string)
    (tr : list event) :
  dependency_relation pip_show deps ->
  exists (g : list string) (trn : list event) (cs : list call),
    build_dependency_graph_calls pip_show max_depth root tr
    = Some (Return g, tr ++ trn, cs)
    /\ forall p, p ∈ lookups trn <->
                 exists c, c ∈ cs /\ call_pkg c = p
                           /\ (call_depth c <= max_depth)%Z.
Proof.
  intros Hdeps. unfold build_dependency_graph_calls.
  destruct (add_dependencies_traversed pip_show max_depth deps Hdeps
              (S (Z.to_nat max_depth)) root 1 (Locals [] ∅) tr)
    as (es & trn & Hrun & _).
  { replace (max_depth + 1 - 1)%Z with max_depth by lia. lia. }
  rewrite (add_dependencies_calls_erase _ _ _ _ _ _ _ []) in Hrun.
  destruct (add_dependencies_calls _ _ _ _ _ _ _ _)
    as [[[o tr'] cs]|] eqn:Hcalls; [|discriminate].
  simpl in Hrun. injection Hrun as -> ->.
  destruct (add_dependencies_calls_log pip_show max_depth tr _ _ _ _ _ _ _ _ _
              Hcalls) as (V & (_ & _ & Hvis) & HV).
  { split_and!;
      [intros i c Hi; discriminate | simpl; now rewrite app_nil_r
       | intros p; split; [sets | intros (c & Hc & _); sets]]. }
  specialize (HV _ eq_refl). simpl in HV.
  exists es, trn, cs. split; [reflexivity|].
  intros p. rewrite <- Hvis, <- HV. sets.
Qed.

Lemma lookups_are_calls_within_depth_witness :
  exists (g : list string) (trn : list event) (cs : list call),
    build_dependency_graph_calls pip_shared 2 "X" []
    = Some (Return g, [] ++ trn, cs)
    /\ forall p, p ∈ lookups trn <->
                 exists c, c ∈ cs /\ call_pkg c = p /\ (call_depth c <= 2)%Z.
Proof.
  exact (lookups_are_calls_within_depth pip_shared (deps_of pip_shared) 2 "X" []
           pip_shared_relation).
Defined.

(** ** The script, read back *)

(** X14.  Relations without line boundaries can be read back from the script:
    two such graphs with the same script are the same graph. *)
Theorem render_injective (g1 g2 : list string) :
  Forall (fun r => chars_all no_linebreak r = true) g1 ->
  Forall (fun r => chars_all no_linebreak r = true) g2 ->
  generate_plantuml_script g1 = generate_plantuml_script g2 ->
  g1 = g2.
Proof.
  intros H1 H2 Heq. apply (f_equal PyStr.splitlines) in Heq.
  rewrite (splitlines_script _ H1), (splitlines_script _ H2) in Heq.
  injection Heq as Heq. now apply app_inv_tail in Heq.
Qed.

Lemma render_injective_witness : ["A --> B"; "A --> C"] = ["A --> B"; "A --> C"].
Proof.
  apply (render_injective ["A --> B"; "A --> C"] ["A --> B"; "A --> C"]);
    [repeat constructor | repeat constructor | reflexivity].
Defined.

(** X15.  Nothing is escaped: a relation that holds a line feed renders as
    the two relations on either side of it. *)
Theorem line_feed_splits_relation (g1 g2 : list string) (a b : string) :
  generate_plantuml_script (g1 ++ (a +:+ nl +:+ b) :: g2)
  = generate_plantuml_script (g1 ++ a :: b :: g2).
Proof.
  rewrite !generate_plantuml_script_eq, !fold_right_app. cbn [fold_right].
  now rewrite !PyStrFacts.string_app_assoc.
Qed.

(** ** From the traversal to the script *)

Lemma within_cases deps n r q :
  within deps n r q = true -> q = r \/ exists p, q ∈ deps p.
Proof.
  revert r. induction n as [|n IH]; intros r; cbn [within].
  - rewrite orb_false_r. intros ->%String.eqb_eq. now left.
  - intros [->%String.eqb_eq|Hex]%orb_true_iff; [now left|].
    apply existsb_exists in Hex as (d & Hd & Hw).
    destruct (IH d Hw) as [->|Hp]; [|now right].
    right. exists r. now apply list_elem_of_In.
Qed.

Lemma relation_no_linebreak (p d : string) :
  chars_all no_linebreak p = true -> chars_all no_linebreak d = true ->
  chars_all no_linebreak (relation p d) = true.
Proof.
  intros Hp Hd. unfold relation.
  now rewrite !PyStrFacts.chars_all_app, Hp, Hd.
Qed.

(** X16.  When the name of the root holds no line boundary, neither does any
    relation of the graph, since the identifiers of a lookup hold none:
    the script of the graph, read line by line, is the start marker, the
    relations of the graph in order, and the end marker. *)
Theorem built_script_reads_back (pip_show : string -> process)
    (deps : string -> list string) (max_depth : Z) (root : string)
    (tr : list event) :
  dependency_relation pip_show deps ->
  chars_all no_linebreak root = true ->
  exists (g : list string) (trn : list event),
    build_dependency_graph pip_show max_depth root tr
    = Some (Return g, tr ++ trn)
    /\ PyStr.splitlines (generate_plantuml_script g)
       = "@startuml" :: g ++ ["@enduml"].
Proof.
  intros Hdeps Hroot.
  destruct (build_dependency_graph_traversed pip_show max_depth deps Hdeps root tr)
    as (g & trn & Hbuild & _ & Hperm & _).
  exists g, trn. split; [exact Hbuild|]. apply splitlines_script.
  assert (forall p d, d ∈ deps p -> chars_all no_linebreak d = true) as Hident.
  { intros p d Hd.
    pose proof (lookup_result_identifiers pip_show p (deps p) (Hdeps p)) as Hall.
    rewrite Forall_forall in Hall. now apply Hall. }
  destruct (build_dependency_graph_run pip_show max_depth root tr)
    as (o & tr' & Hrun & Hbuild').
  rewrite Hbuild in Hbuild'. injection Hbuild' as _ <-.
  destruct (add_dependencies_walked _ _ _ _ _ _ _ _ _ Hrun)
    as (qs & Heq & _ & _ & Hin & _).
  apply app_inv_head in Heq. apply (f_equal lookups) in Heq.
  rewrite lookups_flat_map in Heq.
  apply Forall_forall. intros e He. rewrite Hperm in He.
  apply elem_of_edges_of in He as (p & d & -> & Hp & Hd).
  apply relation_no_linebreak; [|now apply (Hident p)].
  rewrite Heq in Hp. destruct (Hin p Hp) as (_ & s & ->%list_elem_of_singleton & Hw).
  apply within_cases in Hw as [->|(p' & Hp')]; [exact Hroot|].
  apply (Hident p'). unfold deps_of in Hp'. now rewrite Hdeps in Hp'.
Qed.

Lemma built_script_reads_back_witness :
  exists (g : list string) (trn : list event),
    build_dependency_graph pip_xyz 2 "X" [] = Some (Return g, [] ++ trn)
    /\ PyStr.splitlines (generate_plantuml_script g)
       = "@startuml" :: g ++ ["@enduml"].
Proof.
  apply (built_script_reads_back pip_xyz (deps_of pip_xyz) 2 "X" []);
    [exact pip_xyz_relation | reflexivity].
Defined.

(** ** Configuration, output file and visualizer *)

Section ProgramFacts.

Variable fs : Type.
Variable py_int : string -> option Z.
Variable pip_show : string -> process.
Variable write_file : string -> string -> fs -> fs * bool.
Variable path_exists : string -> fs -> bool.

Lemma element_text_Done name root t :
  element_text name root = Done t <->
  exists c, root_find name root = Some c /\ child_text c = t.
Proof.
  unfold element_text. destruct (root_find name root) as [c|]; split.
  - intros [= <-]. eauto.
  - now intros (c' & [= <-] & <-).
  - discriminate.
  - now intros (c' & [=] & _).
Qed.

Lemma build_graph_of_is_Some package_name max_depth tr :
  is_Some (build_graph_of pip_show package_name max_depth tr).
Proof.
  unfold build_graph_of. destruct package_name as [name|].
  - destruct (build_dependency_graph_is_Some pip_show max_depth name tr)
      as [[[g|e] tr'] ->]; eauto.
  - destruct (1 >? max_depth)%Z; eauto.
Qed.

End ProgramFacts.

Lemma parse_xml_config_returns_lemma (fs : Type)
    (et_parse : string -> fs -> option (list child))
    (py_int : string -> option Z) (config_path : string) (files : fs)
    (cfg : config) :
  parse_xml_config fs et_parse py_int config_path files = Done cfg <->
  exists (root : list child) (v p m r : child) (t : string),
    et_parse config_path files = Some root
    /\ root_find "visualizer_path" root = Some v
    /\ root_find "package_name" root = Some p
    /\ root_find "max_depth" root = Some m
    /\ root_find "repository_url" root = Some r
    /\ child_text m = Some t
    /\ py_int t = Some (cfg_max_depth cfg)
    /\ cfg = Config (child_text v) (child_text p) (cfg_max_depth cfg)
                    (child_text r).
Proof.
  unfold parse_xml_config, element_text, int_of_text, and_then. split.
  - destruct (et_parse config_path files) as [root|]; [|discriminate].
    destruct (root_find "visualizer_path" root) as [v|] eqn:Hv; [|discriminate].
    destruct (root_find "package_name" root) as [p|] eqn:Hp; [|discriminate].
    destruct (root_find "max_depth" root) as [m|] eqn:Hm; [|discriminate].
    destruct (child_text m) as [t|] eqn:Ht; [|discriminate].
    destruct (py_int t) as [n|] eqn:Hn; [|discriminate].
    destruct (root_find "repository_url" root) as [r|] eqn:Hr; [|discriminate].
    intros [= <-]. exists root, v, p, m, r, t.
    split_and!; cbn; try reflexivity; assumption.
  - intros (root & v & p & m & r & t & -> & -> & -> & -> & -> & Ht & Hn & ->).
    rewrite Ht. cbn in Hn |- *. now rewrite Hn.
Qed.

(** X17.  [parse_xml_config] returns a configuration exactly when the file is
    read, the root has a child for each of the four names, also for
    [repository_url], and the first [max_depth] child has a text that
    [int] accepts.  Each entry is the text of the first child of its
    name. *)
Theorem parse_xml_config_returns (fs : Type)
    (et_parse : string -> fs -> option (list child))
    (py_int : string -> option Z) (config_path : string) (files : fs)
    (cfg : config) :
  parse_xml_config fs et_parse py_int config_path files = Done cfg <->
  exists (root : list child) (v p m r : child) (t : string),
    et_parse config_path files = Some root
    /\ root_find "visualizer_path" root = Some v
    /\ root_find "package_name" root = Some p
    /\ root_find "max_depth" root = Some m
    /\ root_find "repository_url" root = Some r
    /\ child_text m = Some t
    /\ py_int t = Some (cfg_max_depth cfg)
    /\ cfg = Config (child_text v) (child_text p) (cfg_max_depth cfg)
                    (child_text r).
Proof. apply parse_xml_config_returns_lemma. Qed.

Lemma parse_xml_config_returns_witness :
  parse_xml_config example_fs example_parse example_int "config.xml" []
  = Done (Config (Some "plantuml.jar") (Some "X") 2
                 (Some "https://example.org/simple")).
Proof.
  apply (proj2 (parse_xml_config_returns example_fs example_parse example_int
                  "config.xml" [] _)).
  exists example_root,
    (Child "visualizer_path" (Some "plantuml.jar")),
    (Child "package_name" (Some "X")),
    (Child "max_depth" (Some "2")),
    (Child "repository_url" (Some "https://example.org/simple")), "2".
  split_and!; reflexivity.
Defined.

(** X18.  [main] touches the file system in one way only: by writing, or
    trying to write, the script of the whole graph at
    "dependency_graph.puml", after the configuration was read and the
    traversal returned.  When reading the configuration fails, [main]
    fails the same way and has done nothing: no lookup, no line printed,
    no file written. *)
Theorem main_writes_the_script (fs : Type)
    (et_parse : string -> fs -> option (list child))
    (py_int : string -> option Z) (pip_show : string -> process)
    (write_file : string -> string -> fs -> fs * bool)
    (path_exists : string -> fs -> bool)
    (config_path : string) (files : fs) (tr : list event) :
  exists (r : result unit) (tr' : list event) (files' : fs),
    main fs et_parse py_int pip_show write_file path_exists config_path files tr
    = Some (r, tr', files')
    /\ (files' = files
        \/ exists cfg graph trg,
             parse_xml_config fs et_parse py_int config_path files = Done cfg
             /\ build_graph_of pip_show (cfg_package_name cfg)
                               (cfg_max_depth cfg) tr
                = Some (Done graph, trg)
             /\ files' = fst (write_file "dependency_graph.puml"
                                         (generate_plantuml_script graph) files))
    /\ (forall f,
          parse_xml_config fs et_parse py_int config_path files = Failed f ->
          r = Failed f /\ tr' = tr /\ files' = files).
Proof.
  unfold main.
  destruct (parse_xml_config fs et_parse py_int config_path files) as [cfg|f].
  2:{ eexists _, _, _. split_and!; [reflexivity | now left|].
      now intros f' [= <-]. }
  cbn zeta.
  destruct (build_graph_of_is_Some pip_show (cfg_package_name cfg)
              (cfg_max_depth cfg) tr) as [[[graph|f] trg] Hbuild];
    rewrite Hbuild.
  2:{ eexists _, _, _. split_and!; [reflexivity | now left | discriminate]. }
  unfold save_plantuml_script.
  destruct (write_file _ _ files) as [files' []] eqn:Hwrite.
  - destruct (visualize_graph fs path_exists (cfg_visualizer_path cfg)
                "dependency_graph.puml" files' trg) as [r tr'].
    eexists _, _, _. split_and!; [reflexivity | right | discriminate].
    exists cfg, graph, trg. rewrite Hwrite. now split_and!.
  - eexists _, _, _. split_and!; [reflexivity | right | discriminate].
    exists cfg, graph, trg. rewrite Hwrite. now split_and!.
Qed.

Lemma main_writes_the_script_witness :
  exists (r : result unit) (tr' : list event) (files' : example_fs),
    main example_fs example_parse example_int pip_xyz example_write
         example_exists "config.xml" [] []
    = Some (r, tr', files')
    /\ (files' = []
        \/ exists cfg graph trg,
             parse_xml_config example_fs example_parse example_int
                              "config.xml" [] = Done cfg
             /\ build_graph_of pip_xyz (cfg_package_name cfg)
                               (cfg_max_depth cfg) []
                = Some (Done graph, trg)
             /\ files' = fst (example_write "dependency_graph.puml"
                                           (generate_plantuml_script graph) []))
    /\ (forall f,
          parse_xml_config example_fs example_parse example_int
                           "config.xml" [] = Failed f ->
          r = Failed f /\ tr' = [] /\ files' = []).
Proof.
  exact (main_writes_the_script example_fs example_parse example_int pip_xyz
           example_write example_exists "config.xml" [] []).
Defined.

(** X19.  Whether the jar is there or not, [main] ends without failure once
    the script is written, and starts nothing: when the jar is there the
    trace is that of the traversal, when it is not, one diagnostic
    follows it. *)
Theorem main_after_the_script (fs : Type)
    (et_parse : string -> fs -> option (list child))
    (py_int : string -> option Z) (pip_show : string -> process)
    (write_file : string -> string -> fs -> fs * bool)
    (path_exists : string -> fs -> bool)
    (config_path : string) (files files' : fs) (tr trg : list event)
    (cfg : config) (jar : string) (graph : list string) :
  parse_xml_config fs et_parse py_int config_path files = Done cfg ->
  cfg_visualizer_path cfg = Some jar ->
  build_graph_of pip_show (cfg_package_name cfg) (cfg_max_depth cfg) tr
  = Some (Done graph, trg) ->
  write_file "dependency_graph.puml" (generate_plantuml_script graph) files
  = (files', true) ->
  main fs et_parse py_int pip_show write_file path_exists config_path files tr
  = Some (Done tt,
          trg ++ (if path_exists jar files' then []
                  else [PrintLine (jar_message jar)]),
          files').
Proof.
  intros Hcfg Hjar Hbuild Hwrite. unfold main. rewrite Hcfg. cbn zeta.
  rewrite Hbuild. unfold save_plantuml_script. rewrite Hwrite.
  unfold visualize_graph. rewrite Hjar.
  destruct (path_exists jar files'); [now rewrite app_nil_r | reflexivity].
Qed.

Lemma main_after_the_script_witness :
  main example_fs example_parse example_int pip_xyz example_write
       example_exists "config.xml" [] []
  = Some (Done tt,
          [RunPip "X"; RunPip "Y"; RunPip "Z";
           PrintLine "Error: Jar file not found at plantuml.jar"],
          [("dependency_graph.puml",
            generate_plantuml_script ["X --> Y"; "Y --> W"; "X --> Z"])]).
Proof.
  apply (main_after_the_script example_fs example_parse example_int pip_xyz
           example_write example_exists "config.xml" []
           [("dependency_graph.puml",
             generate_plantuml_script ["X --> Y"; "Y --> W"; "X --> Z"])]
           [] [RunPip "X"; RunPip "Y"; RunPip "Z"]
           (Config (Some "plantuml.jar") (Some "X") 2
                   (Some "https://example.org/simple"))
           "plantuml.jar" ["X --> Y"; "Y --> W"; "X --> Z"]);
    reflexivity.
Defined.

(** X20.  [repository_url] must be there, but what it says has no influence:
    without the element [main] fails before any lookup, and two
    configurations that agree on the three other entries make [main]
    behave the same. *)
Theorem repository_url_required_unused (fs : Type)
    (et_parse et_parse' : string -> fs -> option (list child))
    (py_int : string -> option Z) (pip_show : string -> process)
    (write_file : string -> string -> fs -> fs * bool)
    (path_exists : string -> fs -> bool)
    (config_path : string) (files : fs) (tr : list event) :
  (forall root,
      et_parse config_path files = Some root ->
      root_find "repository_url" root = None ->
      exists f,
        main fs et_parse py_int pip_show write_file path_exists config_path
             files tr
        = Some (Failed f, tr, files))
  /\ (forall cfg cfg',
         parse_xml_config fs et_parse py_int config_path files = Done cfg ->
         parse_xml_config fs et_parse' py_int config_path files = Done cfg' ->
         cfg_visualizer_path cfg = cfg_visualizer_path cfg' ->
         cfg_package_name cfg = cfg_package_name cfg' ->
         cfg_max_depth cfg = cfg_max_depth cfg' ->
         main fs et_parse py_int pip_show write_file path_exists config_path
              files tr
         = main fs et_parse' py_int pip_show write_file path_exists config_path
                files tr).
Proof.
  split.
  - intros root Hroot Hnone. unfold main.
    destruct (parse_xml_config fs et_parse py_int config_path files)
      as [cfg|f] eqn:Hcfg; [|eauto].
    apply parse_xml_config_returns_lemma in Hcfg
      as (root' & v & p & m & r & t & Hroot' & _ & _ & _ & Hr & _).
    rewrite Hroot in Hroot'. injection Hroot' as <-. now rewrite Hnone in Hr.
  - intros cfg cfg' Hcfg Hcfg' Hv Hp Hm. unfold main.
    now rewrite Hcfg, Hcfg', Hv, Hp, Hm.
Qed.

Lemma repository_url_required_unused_witness :
  main example_fs example_parse example_int pip_xyz example_write
       example_exists "config.xml" [] []
  = main example_fs
         (fun _ _ =>
            Some [Child "visualizer_path" (Some "plantuml.jar");
                  Child "package_name" (Some "X");
                  Child "max_depth" (Some "2");
                  Child "repository_url" None])
         example_int pip_xyz example_write example_exists "config.xml" [] [].
Proof.
  apply (proj2 (repository_url_required_unused example_fs example_parse _
                  example_int pip_xyz example_write example_exists
                  "config.xml" [] [])
               (Config (Some "plantuml.jar") (Some "X") 2
                       (Some "https://example.org/simple"))
               (Config (Some "plantuml.jar") (Some "X") 2 None));
    reflexivity.
Defined.
